(** * Piper Alpha training backend: progress normalisation, statistics,
      authentication and authorisation

    A shallow embedding of [backend/app]: [config.py], [schemas.py],
    [models.py], [crud.py], [auth.py], [pdf_generator.py] and the request
    handlers of [main.py], followed by the properties of these functions.

    Python values are modelled as follows.
    - [int] is [Z]; a [str] is the [string] of its UTF-8 bytes; a [list]
      is a [list].
    - [float] is IEEE 754 binary64, as the [spec_float] of the standard
      library with [prec = 53] and [emax = 1024]: every float operation
      below is the correctly rounded one, and it computes.
    - a [dict] used as a map is a [gmap], a [set] is a [gset]; the chapter
      dictionaries, which always carry the keys ["chapter"], ["score"] and
      ["status"], are records.
    - an exception is the [Raise] case of [result].
    - a table of the database is the list of its rows in insertion
      order, and [query.filter(...).first()] is the first row that
      satisfies the filter. *)

From Stdlib Require Import ZArith Lia SpecFloat.
From stdpp Require Import base option list sorting gmap strings pretty.

Local Open Scope string_scope.
Local Open Scope list_scope.
Local Open Scope Z_scope.

(** ** Exceptions and results *)

Inductive exn :=
| HTTPException (status_code : Z) (detail : string)
                (headers : list (string * string))
| RequestValidationError (errors : list string)
| ZeroDivisionError
| ValueError (msg : string)
| OverflowError
| AttributeError
| UnicodeEncodeError.

Inductive result (A : Type) :=
| Ok (a : A)
| Raise (e : exn).
Arguments Ok {A} a.
Arguments Raise {A} e.

#[global] Instance result_ret : MRet result := λ A a, Ok a.
#[global] Instance result_bind : MBind result := λ A B f r,
  match r with
  | Ok a => f a
  | Raise e => Raise e
  end.

#[global] Instance exn_eq_dec : EqDecision exn.
Proof. solve_decision. Defined.

#[global] Instance result_eq_dec {A} `{EqDecision A} : EqDecision (result A).
Proof. solve_decision. Defined.

#[global] Instance spec_float_eq_dec : EqDecision spec_float.
Proof. solve_decision. Defined.

(** ** Packages outside the repository

    The backend calls passlib, jose, email-validator and the built-in
    [int] on a string. Their results are taken as they come. *)

Class Libraries := {
  (** [pwd_context.verify(plain, hashed)]: the answer, or the exception
      that passlib raises on a password that it refuses (one that holds
      the NUL character, or of more than 4096 characters). *)
  pwd_context_verify : string → string → result bool;
  (** [jwt.encode] of the claims [sub] and [exp] under the configured key. *)
  jwt_encode : string → Z → string;
  (** [jwt.decode] of a token at a given time: [None] for a [JWTError],
      otherwise [payload.get("sub")]. *)
  jwt_decode_sub : Z → string → option (option string);
  (** [EmailStr]: the check and normalisation of an email address. *)
  EmailStr : string → result string;
  (** [int(s)] on a string: [None] for a [ValueError]. *)
  int_of_str : string → option Z
}.

(** [pwd_context.hash(password)] of passlib; the salt that it draws is
    its first argument here. It raises on a password that passlib
    refuses. *)
Class Hashing := {
  pwd_context_hash : string → string → result string
}.

(** ** Python numbers *)

Module Py.

Definition float := spec_float.
Definition prec : Z := 53.
Definition emax : Z := 1024.

(** What [round] and the arithmetic operators see: an [int] or a [float]. *)
Inductive number :=
| Int (z : Z)
| Float (f : float).

(** An integer as an exact, not yet rounded, binary number. *)
Definition int_exact (z : Z) : float :=
  match z with
  | Z0 => S754_zero false
  | Zpos p => S754_finite false p 0
  | Zneg p => S754_finite true p 0
  end.

(** [float(z)]: the nearest double, ties to even. *)
Definition float_of_int (z : Z) : result float :=
  match binary_normalize prec emax z 0 false with
  | S754_infinity _ => Raise OverflowError
  | f => Ok f
  end.

(** [a / b] on two ints: the exact quotient, rounded once. *)
Definition int_truediv (a b : Z) : result float :=
  if b =? 0 then Raise ZeroDivisionError
  else match SFdiv prec emax (int_exact a) (int_exact b) with
       | S754_infinity _ => Raise OverflowError
       | f => Ok f
       end.

(** [x * k] for a float [x] and an int [k]. *)
Definition float_mul_int (x : float) (k : Z) : result float :=
  y ← float_of_int k; Ok (SFmul prec emax x y).

(** The integer nearest to [a / b], for [0 < b], ties to the even one. *)
Definition round_half_even_div (a b : Z) : Z :=
  let q := a `div` b in
  match 2 * (a `mod` b) ?= b with
  | Lt => q
  | Eq => if Z.even q then q else q + 1
  | Gt => q + 1
  end.

(** The double written [k / 10] in decimal, with sign [s]: what
    converting the digits back to binary gives. *)
Definition float_of_tenths (s : bool) (k : Z) : float :=
  match k with
  | Zpos p => SFdiv prec emax (S754_finite s p 0) (S754_finite false 10 0)
  | _ => S754_zero s
  end.

(** [round(x, 1)] on a float: the exact binary value of [x] is rounded to
    one decimal digit, ties to even, and the decimal is read back. *)
Definition float_round1 (x : float) : float :=
  match x with
  | S754_finite s m e =>
      let k := if 0 <=? e then 10 * Zpos m * 2 ^ e
               else round_half_even_div (10 * Zpos m) (2 ^ (- e)) in
      float_of_tenths s k
  | _ => x
  end.

(** [round(x, 1)]: an int is returned unchanged. *)
Definition round1 (x : number) : number :=
  match x with
  | Int z => Int z
  | Float f => Float (float_round1 f)
  end.

(** [sum(l)] on a list of ints. *)
Definition sum (l : list Z) : Z := foldl Z.add 0 l.

(** Whether [s.encode("latin-1")] returns: every character of [s] is
    below U+0100, that is, every UTF-8 sequence of [s] is one byte below
    128, or one of the lead bytes 194 and 195 and a continuation byte. *)
Fixpoint latin1_encodable (s : string) : bool :=
  match s with
  | EmptyString => true
  | String a s' =>
      let b := Ascii.N_of_ascii a in
      if (b <? 128)%N then latin1_encodable s'
      else if (b =? 194)%N || (b =? 195)%N
           then match s' with
                | String a' s'' =>
                    let b' := Ascii.N_of_ascii a' in
                    (128 <=? b')%N && (b' <? 192)%N && latin1_encodable s''
                | EmptyString => false
                end
           else false
  end.

(** [len(l)]. *)
Definition len {A} (l : list A) : Z := Z.of_nat (length l).

(** [enumerate(l)]. *)
Definition enumerate {A} (l : list A) : list (Z * A) :=
  imap (λ i x, (Z.of_nat i, x)) l.

(** [l.sort(key=key)]: the sort is stable and compares keys with [<]
    only, so it is determined by its result on the keys; it is written
    here as an insertion from the right, which keeps equal keys in their
    original order. *)
Section Sort.
Context {A : Type} (key : A → Z).

Fixpoint insert_by_key (x : A) (l : list A) : list A :=
  match l with
  | [] => [x]
  | y :: l' => if key y <? key x then y :: insert_by_key x l'
               else x :: l
  end.

Fixpoint sort_by_key (l : list A) : list A :=
  match l with
  | [] => []
  | x :: l' => insert_by_key x (sort_by_key l')
  end.
End Sort.

End Py.

(** ** config.py *)

Module config.

Definition ACCESS_TOKEN_EXPIRE_DAYS : Z := 30.

Definition VALID_CHAPTERS : list string :=
  [ "Briefing Room";
    "Arrival on Piper Alpha";
    "Maintenance Area";
    "Precursor to Disaster";
    "Explosion Simulation";
    "Escape Aftermath";
    "Debrief" ].

Definition VALID_STATUSES : list string :=
  [ "Completed"; "Pending"; "Not Completed" ].

Definition VALID_ROLES : list string := [ "Trainee"; "Admin" ].

Definition MIN_SCORE : Z := 0.
Definition MAX_SCORE : Z := 10.

End config.

(** ** schemas.py *)

Module schemas.
Import config.

(** The fields of [UserCreate]. *)
Module UserCreate.
Record t := {
  email : string;
  password : string;
  role : string;
  trainee_name : string
}.
End UserCreate.

Definition VALID_ROLES_repr : string := "['Trainee', 'Admin']".

(** The validator [UserCreate.validate_role]. *)
Definition validate_role (v : string) : result string :=
  if bool_decide (v ∈ VALID_ROLES) then Ok v
  else Raise (ValueError ("Role must be one of " +:+ VALID_ROLES_repr)).

(** [Union[int, str]]. *)
Inductive score_value :=
| ScoreInt (v : Z)
| ScoreStr (v : string).

#[global] Instance score_value_eq_dec : EqDecision score_value.
Proof. solve_decision. Defined.

(** A chapter entry, as the model [ChapterData] and as the dictionary that
    [model_dump] makes of it. *)
Record ChapterData := {
  chapter : string;
  score : score_value;
  status : string
}.

#[global] Instance ChapterData_eq_dec : EqDecision ChapterData.
Proof. solve_decision. Defined.

Definition VALID_CHAPTERS_repr : string :=
  "['Briefing Room', 'Arrival on Piper Alpha', 'Maintenance Area', 'Precursor to Disaster', 'Explosion Simulation', 'Escape Aftermath', 'Debrief']".

Definition VALID_STATUSES_repr : string :=
  "['Completed', 'Pending', 'Not Completed']".

Definition validate_chapter (v : string) : result string :=
  if bool_decide (v ∈ VALID_CHAPTERS) then Ok v
  else Raise (ValueError ("Chapter must be one of " +:+ VALID_CHAPTERS_repr)).

Definition validate_score (v : score_value) : result score_value :=
  match v with
  | ScoreStr s =>
      if negb (String.eqb s "NA")
      then Raise (ValueError "Score must be an integer (0-10) or 'NA'")
      else Ok v
  | ScoreInt i =>
      if (i <? MIN_SCORE) || (MAX_SCORE <? i)
      then Raise (ValueError "Score must be between 0 and 10")
      else Ok v
  end.

Definition validate_status (v : string) : result string :=
  if bool_decide (v ∈ VALID_STATUSES) then Ok v
  else Raise (ValueError ("Status must be one of " +:+ VALID_STATUSES_repr)).

(** The messages of the validators that rejected their field. *)
Definition value_errors {A} (r : result A) : list string :=
  match r with
  | Raise (ValueError msg) => ["Value error, " +:+ msg]
  | _ => []
  end.

(** Validation of one [ChapterData]: every field validator runs, in the
    order of the fields, and the errors are collected. *)
Definition ChapterData_errors (c : ChapterData) : list string :=
  value_errors (validate_chapter (chapter c))
  ++ value_errors (validate_score (score c))
  ++ value_errors (validate_status (status c)).

Definition ChapterData_valid (c : ChapterData) : bool :=
  bool_decide (ChapterData_errors c = []).

Record PerformanceSubmit := {
  email : string;
  chapters : list ChapterData
}.

Definition validate_chapters_not_empty (v : list ChapterData)
  : result (list ChapterData) :=
  if Py.len v =? 0
  then Raise (ValueError "At least one chapter must be provided")
  else Ok v.

Section Validation.
Context `{Libraries}.

(** Validation of the request body of [POST /performance]. The validator
    of [chapters] runs after the items of the list, and only when all of
    them are valid. *)
Definition PerformanceSubmit_validate (body : PerformanceSubmit)
  : result PerformanceSubmit :=
  let email_errors :=
    match EmailStr (email body) with
    | Raise (ValueError msg) => [msg]
    | _ => []
    end in
  let item_errors := concat (ChapterData_errors <$> chapters body) in
  let chapters_errors :=
    match item_errors with
    | [] => value_errors (validate_chapters_not_empty (chapters body))
    | _ => item_errors
    end in
  match EmailStr (email body), email_errors ++ chapters_errors with
  | Ok e, [] => Ok {| email := e; chapters := chapters body |}
  | _, errors => Raise (RequestValidationError errors)
  end.
End Validation.

End schemas.

(** ** models.py and the database session *)

Module models.
Import schemas.

Module User.
Record t := {
  email : string;
  hashed_password : string;
  role : string;
  trainee_name : string;
  created_at : Z
}.
End User.

Module PerformanceData.
Record t := {
  id : Z;
  email : string;
  session_timestamp : Z;
  chapter_data : list ChapterData
}.
End PerformanceData.

(** The outcome of adding a row and committing: the primary key of the
    new row may be taken already. *)
Inductive commit (A : Type) :=
| Committed (a : A)
| IntegrityError.
Arguments Committed {A} a.
Arguments IntegrityError {A}.

(** The two tables, and the counter of the autoincremented key. *)
Record Session := {
  users : list User.t;
  performance_data : list PerformanceData.t;
  performance_data_seq : Z
}.

End models.

(** ** auth.py *)

Module auth.
Import config models.

Section Auth.
Context `{Libraries}.

Definition get_password_hash `{Hashing} (salt password : string)
  : result string :=
  pwd_context_hash salt password.

Definition verify_password (plain_password hashed_password : string)
  : result bool :=
  pwd_context_verify plain_password hashed_password.

Definition seconds_of_days (days : Z) : Z := days * 86400.

(** [data] is [{"sub": sub}]; a zero [expires_delta] is falsy and takes
    the default lifetime. *)
Definition create_access_token (now : Z) (sub : string)
    (expires_delta : option Z) : string :=
  let expire :=
    match expires_delta with
    | Some d => if d =? 0
                then now + seconds_of_days ACCESS_TOKEN_EXPIRE_DAYS
                else now + d
    | None => now + seconds_of_days ACCESS_TOKEN_EXPIRE_DAYS
    end in
  jwt_encode sub expire.

Definition decode_access_token (now : Z) (token : string) : option string :=
  match jwt_decode_sub now token with
  | Some email => email
  | None => None
  end.

Definition credentials_exception : exn :=
  HTTPException 401 "Could not validate credentials"
                [("WWW-Authenticate", "Bearer")].

Definition get_current_user (db : Session) (now : Z) (token : string)
  : result User.t :=
  match decode_access_token now token with
  | None => Raise credentials_exception
  | Some email =>
      match List.find (λ user, String.eqb (User.email user) email)
                      (users db) with
      | None => Raise credentials_exception
      | Some user => Ok user
      end
  end.

Definition get_current_active_user (db : Session) (now : Z) (token : string)
  : result User.t :=
  get_current_user db now token.

Definition get_current_admin_user (db : Session) (now : Z) (token : string)
  : result User.t :=
  current_user ← get_current_user db now token;
  if negb (String.eqb (User.role current_user) "Admin")
  then Raise (HTTPException 403
                "Not enough permissions. Admin access required." [])
  else Ok current_user.

(** The password is verified only when a user has the email, and an
    exception of [verify_password] is not caught. *)
Definition authenticate_user (db : Session) (email password : string)
  : result (option User.t) :=
  match List.find (λ user, String.eqb (User.email user) email)
                  (users db) with
  | None => Ok None
  | Some user =>
      verified ← verify_password password (User.hashed_password user);
      if negb verified
      then Ok None
      else Ok (Some user)
  end.

End Auth.
End auth.

(** ** crud.py *)

Module crud.
Import config schemas models.

Definition get_user_by_email (db : Session) (email : string)
  : option User.t :=
  List.find (λ user, String.eqb (User.email user) email) (users db).

(** [now] is the time the database stamps the new row with, [salt] the
    salt of the password hash. The password is hashed first: when that
    raises, nothing is added. The email is the primary key of the table:
    a second row with the same email is refused. *)
Definition create_user `{Hashing} (db : Session) (now : Z) (salt : string)
    (user : UserCreate.t) : commit (Session * result User.t) :=
  match auth.get_password_hash salt (UserCreate.password user) with
  | Raise e => Committed (db, Raise e)
  | Ok hashed_password =>
      let db_user :=
        {| User.email := UserCreate.email user;
           User.hashed_password := hashed_password;
           User.role := UserCreate.role user;
           User.trainee_name := UserCreate.trainee_name user;
           User.created_at := now |} in
      if existsb (λ row, String.eqb (User.email row) (User.email db_user))
                 (users db)
      then IntegrityError
      else Committed ({| users := users db ++ [db_user];
                         performance_data := performance_data db;
                         performance_data_seq := performance_data_seq db |},
                      Ok db_user)
  end.

(** [{chapter["chapter"] for chapter in chapter_data}]. *)
Definition submitted_chapters (chapter_data : list ChapterData)
  : gset string :=
  list_to_set (chapter <$> chapter_data).

(** The entry appended for a chapter that was not submitted. *)
Definition not_attempted (chapter : string) : ChapterData :=
  {| chapter := chapter; score := ScoreStr "NA"; status := "Not Completed" |}.

(** The loop over [VALID_CHAPTERS] that appends the missing chapters. *)
Definition fill_missing (submitted : gset string)
    (complete_chapter_data : list ChapterData) : list ChapterData :=
  foldl (λ complete chapter,
           if bool_decide (chapter ∉ submitted)
           then complete ++ [not_attempted chapter]
           else complete)
        complete_chapter_data VALID_CHAPTERS.

(** [{chapter: idx for idx, chapter in enumerate(VALID_CHAPTERS)}]. *)
Definition chapter_order : gmap string Z :=
  foldl (λ (m : gmap string Z) '(idx, chapter), <[chapter := idx]> m)
        ∅ (Py.enumerate VALID_CHAPTERS).

(** [lambda x: chapter_order.get(x["chapter"], 999)]. *)
Definition sort_key (x : ChapterData) : Z :=
  default 999 (chapter_order !! chapter x).

(** The list that [create_performance_data] stores: the submitted entries,
    the missing chapters appended, sorted by chapter order. *)
Definition complete_chapter_data (chapter_data : list ChapterData)
  : list ChapterData :=
  Py.sort_by_key sort_key
    (fill_missing (submitted_chapters chapter_data) chapter_data).

(** [now] is the time the database stamps the new row with. *)
Definition create_performance_data (db : Session) (now : Z)
    (email : string) (chapter_data : list ChapterData)
  : Session * PerformanceData.t :=
  let db_performance :=
    {| PerformanceData.id := performance_data_seq db + 1;
       PerformanceData.email := email;
       PerformanceData.session_timestamp := now;
       PerformanceData.chapter_data := complete_chapter_data chapter_data |} in
  ({| users := users db;
      performance_data := performance_data db ++ [db_performance];
      performance_data_seq := performance_data_seq db + 1 |},
   db_performance).

(** Newest first; the order among rows of equal timestamp is the
    database's choice and is taken here to be the insertion order. *)
Definition get_user_performance_data (db : Session) (email : string)
    (skip limit : nat) : list PerformanceData.t :=
  take limit (drop skip
    (Py.sort_by_key (λ p, - PerformanceData.session_timestamp p)
       (filter (λ p, PerformanceData.email p = email) (performance_data db)))).

(** The query for a session id that the database can bind, an integer of
    64 bits. *)
Definition get_performance_by_session_id (db : Session) (session_id : Z)
  : option PerformanceData.t :=
  List.find (λ p, PerformanceData.id p =? session_id) (performance_data db).

End crud.

(** ** pdf_generator.py *)

Module pdf_generator.
Import schemas models.

Record Statistics := {
  completed_count : Z;
  total_count : Z;
  average_score : Py.number;
  completion_rate : Py.float
}.

(** Which of the three remarks the report prints. *)
Inductive remark :=
| FullCompletion
| Partial
| NotStarted.

Section Report.
Context `{Libraries}.

(** [chapter["score"] != "NA"]: an int is never equal to a string. *)
Definition score_not_NA (v : score_value) : bool :=
  match v with
  | ScoreInt _ => true
  | ScoreStr s => negb (String.eqb s "NA")
  end.

(** [int(chapter["score"])]. *)
Definition int_of_score (v : score_value) : result Z :=
  match v with
  | ScoreInt i => Ok i
  | ScoreStr s =>
      match int_of_str s with
      | Some i => Ok i
      | None => Raise (ValueError "invalid literal for int() with base 10")
      end
  end.

(** The loop of [calculate_statistics], from the current values of
    [completed_count] and [total_scores]. *)
Fixpoint count_chapters (chapter_data : list ChapterData)
    (completed_count : Z) (total_scores : list Z) : result (Z * list Z) :=
  match chapter_data with
  | [] => Ok (completed_count, total_scores)
  | chapter :: rest =>
      let completed_count :=
        if String.eqb (status chapter) "Completed"
        then completed_count + 1 else completed_count in
      total_scores ←
        (if score_not_NA (score chapter)
         then i ← int_of_score (score chapter); Ok (total_scores ++ [i])
         else Ok total_scores);
      count_chapters rest completed_count total_scores
  end.

Definition calculate_statistics (chapter_data : list ChapterData)
  : result Statistics :=
  '(completed_count, total_scores) ← count_chapters chapter_data 0 [];
  avg_score ←
    match total_scores with
    | [] => Ok (Py.Int 0)
    | _ => q ← Py.int_truediv (Py.sum total_scores) (Py.len total_scores);
           Ok (Py.Float q)
    end;
  let average_score := Py.round1 avg_score in
  ratio ← Py.int_truediv completed_count (Py.len chapter_data);
  percent ← Py.float_mul_int ratio 100;
  Ok {| completed_count := completed_count;
        total_count := Py.len chapter_data;
        average_score := average_score;
        completion_rate := Py.float_round1 percent |}.

(** The choice among the three remark texts at the end of
    [generate_course_report]. *)
Definition select_remark (stats : Statistics) : remark :=
  if completed_count stats =? total_count stats then FullCompletion
  else if 0 <? completed_count stats then Partial
  else NotStarted.

(** What [generate_course_report] computes before ReportLab typesets it:
    the statistics of the session and the remark they select. *)
Definition generate_course_report (chapter_data : list ChapterData)
  : result (Statistics * remark) :=
  stats ← calculate_statistics chapter_data;
  Ok (stats, select_remark stats).

End Report.
End pdf_generator.

(** ** main.py *)

Module main.
Import config schemas models.

Record UserLogin := {
  email : string;
  password : string
}.

Record Token := {
  access_token : string;
  token_type : string
}.

Record PerformanceSubmitResponse := {
  message : string;
  session_id : Z;
  session_timestamp : Z
}.

(** The data behind a downloaded report. *)
Record Report := {
  report_user : User.t;
  report_session : PerformanceData.t;
  report_statistics : pdf_generator.Statistics;
  report_remark : pdf_generator.remark
}.

Section Handlers.
Context `{Libraries}.

(** The handler of [POST /register], on a validated body. *)
Definition register_user `{Hashing} (db : Session) (now : Z) (salt : string)
    (user : UserCreate.t) : commit (Session * result User.t) :=
  match crud.get_user_by_email db (UserCreate.email user) with
  | Some _ =>
      Committed (db, Raise (HTTPException 400 "Email already registered" []))
  | None => crud.create_user db now salt user
  end.

Definition login (db : Session) (now : Z) (user_login : UserLogin)
  : result Token :=
  user ← auth.authenticate_user db (email user_login) (password user_login);
  match user with
  | None =>
      Raise (HTTPException 401 "Incorrect email or password"
                           [("WWW-Authenticate", "Bearer")])
  | Some user =>
      let access_token_expires :=
        auth.seconds_of_days ACCESS_TOKEN_EXPIRE_DAYS in
      Ok {| access_token :=
              auth.create_access_token now (User.email user)
                                       (Some access_token_expires);
            token_type := "bearer" |}
  end.

(** The handler of [POST /performance], on a validated body. *)
Definition submit_performance (db : Session) (now : Z)
    (performance : PerformanceSubmit)
  : Session * result PerformanceSubmitResponse :=
  match crud.get_user_by_email db (schemas.email performance) with
  | None =>
      (db, Raise (HTTPException 404
                    ("User not found with email: "
                     +:+ schemas.email performance) []))
  | Some _ =>
      let '(db', db_performance) :=
        crud.create_performance_data db now (schemas.email performance)
                                     (chapters performance) in
      (db', Ok {| message := "Performance data submitted successfully";
                  session_id := PerformanceData.id db_performance;
                  session_timestamp :=
                    PerformanceData.session_timestamp db_performance |})
  end.

(** [POST /performance]: the body is validated, then handled. *)
Definition post_performance (db : Session) (now : Z)
    (body : PerformanceSubmit)
  : Session * result PerformanceSubmitResponse :=
  match PerformanceSubmit_validate body with
  | Raise e => (db, Raise e)
  | Ok performance => submit_performance db now performance
  end.

(** The handler of [GET /performance/{email}]; [current_user] is the user
    that [auth.get_current_active_user] returned. *)
Definition get_performance (db : Session) (email : string)
    (current_user : User.t) : result (list PerformanceData.t) :=
  if negb (String.eqb (User.email current_user) email)
     && negb (String.eqb (User.role current_user) "Admin")
  then Raise (HTTPException 403
                "Not authorized to access this user's data" [])
  else
    match crud.get_user_by_email db email with
    | None =>
        Raise (HTTPException 404
                 ("User not found with email: " +:+ email) [])
    | Some _ => Ok (crud.get_user_performance_data db email 0 100)
    end.

(** The [Content-Disposition] header of the response is built from
    [filename], which holds [trainee_name] with its spaces replaced, the
    digits of the timestamp and ASCII text; [StreamingResponse] encodes
    its headers in latin-1, and the value is encodable exactly when the
    name is. *)
Definition StreamingResponse (user : User.t) (report : Report)
  : result Report :=
  if Py.latin1_encodable (User.trainee_name user)
  then Ok report
  else Raise UnicodeEncodeError.

(** The handler of [GET /download-report/{session_id}]: the data of the
    report, then the response that carries it. *)
Definition download_report (db : Session) (session_id : Z)
    (current_user : User.t) : result Report :=
  match crud.get_performance_by_session_id db session_id with
  | None =>
      Raise (HTTPException 404
               ("Performance session not found with ID: "
                +:+ pretty session_id) [])
  | Some performance =>
      if negb (String.eqb (User.email current_user)
                          (PerformanceData.email performance))
         && negb (String.eqb (User.role current_user) "Admin")
      then Raise (HTTPException 403
                    "Not authorized to download this report" [])
      else
        match crud.get_user_by_email db (PerformanceData.email performance) with
        | None => Raise AttributeError
        | Some user =>
            '(stats, remark) ←
              pdf_generator.generate_course_report
                (PerformanceData.chapter_data performance);
            StreamingResponse user
              {| report_user := user;
                 report_session := performance;
                 report_statistics := stats;
                 report_remark := remark |}
        end
  end.

End Handlers.
End main.

(** ** frontend/app.py *)

Module frontend.
Import schemas.

Section Dashboard.
Context `{Libraries}.

(** [[int(ch["score"]) for ch in chapter_data if ch["score"] != "NA"]]. *)
Fixpoint scores (chapter_data : list ChapterData) : result (list Z) :=
  match chapter_data with
  | [] => Ok []
  | ch :: rest =>
      if pdf_generator.score_not_NA (score ch)
      then i ← pdf_generator.int_of_score (score ch);
           l ← scores rest;
           Ok (i :: l)
      else scores rest
  end.

(** The statistics that [show_dashboard] computes for one session:
    [completed], [total] and [avg_score]. *)
Definition session_stats (chapter_data : list ChapterData)
  : result (Z * Z * Py.number) :=
  let completed :=
    Py.sum ((λ _, 1) <$> filter (λ ch, status ch = "Completed") chapter_data) in
  let total := Py.len chapter_data in
  scores ← scores chapter_data;
  avg_score ←
    match scores with
    | [] => Ok (Py.Int 0)
    | _ => q ← Py.int_truediv (Py.sum scores) (Py.len scores);
           Ok (Py.Float q)
    end;
  Ok (completed, total, avg_score).

End Dashboard.
End frontend.

(** ** Vocabulary of the statements *)

Module record.
Import config schemas.

(** A progress record as the data model describes it: one valid entry
    per curriculum chapter, in curriculum order. *)
Definition normalized (r : list ChapterData) : Prop :=
  chapter <$> r = VALID_CHAPTERS ∧ Forall (λ c, ChapterData_valid c = true) r.

(** The number of entries whose status is ["Completed"]. *)
Definition completed (r : list ChapterData) : Z :=
  Py.len (filter (λ c, status c = "Completed") r).

(** The integer scores of a record, in order; in a valid record every
    other score is ["NA"]. *)
Definition scores (r : list ChapterData) : list Z :=
  omap (λ c, match score c with
             | ScoreInt i => Some i
             | ScoreStr _ => None
             end) r.

(** An entry whose score is an integer or ["NA"]. *)
Definition int_or_NA (e : ChapterData) : Prop :=
  match score e with
  | ScoreInt _ => True
  | ScoreStr s => s = "NA"
  end.

(** The tenths nearest to the fraction [a / b], and the double written
    with that one decimal. *)
Definition tenths (a b : Z) : Z := Py.round_half_even_div (10 * a) b.
Definition one_decimal (a b : Z) : Py.float :=
  Py.float_of_tenths false (tenths a b).

(** [k] tenths is the decimal with one digit that is nearest to the
    fraction [a / b], for [0 < b]; when [a / b] lies half way between two
    such decimals, it is the one whose digit is even. *)
Definition nearest_tenth (a b k : Z) : Prop :=
  2 * Z.abs (b * k - 10 * a) ≤ b
  ∧ (2 * Z.abs (b * k - 10 * a) = b → Z.even k = true).

(** The doubles that Python writes with one decimal, by their number of
    tenths: 0.0, 0.1, ..., 10.0, and 14.3, 28.6, 42.9, 57.1, 71.4, 85.7
    and 100.0. Each is given by its mantissa of 53 bits and its
    exponent. *)
Definition decimal_doubles : list (Z * Py.float) := [
  (0, S754_zero false);
  (1, S754_finite false 7205759403792794 (-56));
  (2, S754_finite false 7205759403792794 (-55));
  (3, S754_finite false 5404319552844595 (-54));
  (4, S754_finite false 7205759403792794 (-54));
  (5, S754_finite false 4503599627370496 (-53));
  (6, S754_finite false 5404319552844595 (-53));
  (7, S754_finite false 6305039478318694 (-53));
  (8, S754_finite false 7205759403792794 (-53));
  (9, S754_finite false 8106479329266893 (-53));
  (10, S754_finite false 4503599627370496 (-52));
  (11, S754_finite false 4953959590107546 (-52));
  (12, S754_finite false 5404319552844595 (-52));
  (13, S754_finite false 5854679515581645 (-52));
  (14, S754_finite false 6305039478318694 (-52));
  (15, S754_finite false 6755399441055744 (-52));
  (16, S754_finite false 7205759403792794 (-52));
  (17, S754_finite false 7656119366529843 (-52));
  (18, S754_finite false 8106479329266893 (-52));
  (19, S754_finite false 8556839292003942 (-52));
  (20, S754_finite false 4503599627370496 (-51));
  (21, S754_finite false 4728779608739021 (-51));
  (22, S754_finite false 4953959590107546 (-51));
  (23, S754_finite false 5179139571476070 (-51));
  (24, S754_finite false 5404319552844595 (-51));
  (25, S754_finite false 5629499534213120 (-51));
  (26, S754_finite false 5854679515581645 (-51));
  (27, S754_finite false 6079859496950170 (-51));
  (28, S754_finite false 6305039478318694 (-51));
  (29, S754_finite false 6530219459687219 (-51));
  (30, S754_finite false 6755399441055744 (-51));
  (31, S754_finite false 6980579422424269 (-51));
  (32, S754_finite false 7205759403792794 (-51));
  (33, S754_finite false 7430939385161318 (-51));
  (34, S754_finite false 7656119366529843 (-51));
  (35, S754_finite false 7881299347898368 (-51));
  (36, S754_finite false 8106479329266893 (-51));
  (37, S754_finite false 8331659310635418 (-51));
  (38, S754_finite false 8556839292003942 (-51));
  (39, S754_finite false 8782019273372467 (-51));
  (40, S754_finite false 4503599627370496 (-50));
  (41, S754_finite false 4616189618054758 (-50));
  (42, S754_finite false 4728779608739021 (-50));
  (43, S754_finite false 4841369599423283 (-50));
  (44, S754_finite false 4953959590107546 (-50));
  (45, S754_finite false 5066549580791808 (-50));
  (46, S754_finite false 5179139571476070 (-50));
  (47, S754_finite false 5291729562160333 (-50));
  (48, S754_finite false 5404319552844595 (-50));
  (49, S754_finite false 5516909543528858 (-50));
  (50, S754_finite false 5629499534213120 (-50));
  (51, S754_finite false 5742089524897382 (-50));
  (52, S754_finite false 5854679515581645 (-50));
  (53, S754_finite false 5967269506265907 (-50));
  (54, S754_finite false 6079859496950170 (-50));
  (55, S754_finite false 6192449487634432 (-50));
  (56, S754_finite false 6305039478318694 (-50));
  (57, S754_finite false 6417629469002957 (-50));
  (58, S754_finite false 6530219459687219 (-50));
  (59, S754_finite false 6642809450371482 (-50));
  (60, S754_finite false 6755399441055744 (-50));
  (61, S754_finite false 6867989431740006 (-50));
  (62, S754_finite false 6980579422424269 (-50));
  (63, S754_finite false 7093169413108531 (-50));
  (64, S754_finite false 7205759403792794 (-50));
  (65, S754_finite false 7318349394477056 (-50));
  (66, S754_finite false 7430939385161318 (-50));
  (67, S754_finite false 7543529375845581 (-50));
  (68, S754_finite false 7656119366529843 (-50));
  (69, S754_finite false 7768709357214106 (-50));
  (70, S754_finite false 7881299347898368 (-50));
  (71, S754_finite false 7993889338582630 (-50));
  (72, S754_finite false 8106479329266893 (-50));
  (73, S754_finite false 8219069319951155 (-50));
  (74, S754_finite false 8331659310635418 (-50));
  (75, S754_finite false 8444249301319680 (-50));
  (76, S754_finite false 8556839292003942 (-50));
  (77, S754_finite false 8669429282688205 (-50));
  (78, S754_finite false 8782019273372467 (-50));
  (79, S754_finite false 8894609264056730 (-50));
  (80, S754_finite false 4503599627370496 (-49));
  (81, S754_finite false 4559894622712627 (-49));
  (82, S754_finite false 4616189618054758 (-49));
  (83, S754_finite false 4672484613396890 (-49));
  (84, S754_finite false 4728779608739021 (-49));
  (85, S754_finite false 4785074604081152 (-49));
  (86, S754_finite false 4841369599423283 (-49));
  (87, S754_finite false 4897664594765414 (-49));
  (88, S754_finite false 4953959590107546 (-49));
  (89, S754_finite false 5010254585449677 (-49));
  (90, S754_finite false 5066549580791808 (-49));
  (91, S754_finite false 5122844576133939 (-49));
  (92, S754_finite false 5179139571476070 (-49));
  (93, S754_finite false 5235434566818202 (-49));
  (94, S754_finite false 5291729562160333 (-49));
  (95, S754_finite false 5348024557502464 (-49));
  (96, S754_finite false 5404319552844595 (-49));
  (97, S754_finite false 5460614548186726 (-49));
  (98, S754_finite false 5516909543528858 (-49));
  (99, S754_finite false 5573204538870989 (-49));
  (100, S754_finite false 5629499534213120 (-49));
  (143, S754_finite false 8050184333924762 (-49));
  (286, S754_finite false 8050184333924762 (-48));
  (429, S754_finite false 6037638250443571 (-47));
  (571, S754_finite false 8036110585089229 (-47));
  (714, S754_finite false 5024328334285210 (-46));
  (857, S754_finite false 6030601376025805 (-46));
  (1000, S754_finite false 7036874417766400 (-46))
].

Definition decimal_double (k : Z) : option Py.float :=
  snd <$> List.find (λ kf, kf.1 =? k) decimal_doubles.

(** A 64-bit signed integer, what the database driver binds. *)
Definition int64 (z : Z) : Prop := - 2 ^ 63 ≤ z < 2 ^ 63.

(** The chapters of the curriculum that a submission does not name. *)
Definition missing (sub : list ChapterData) : list string :=
  filter (λ c, c ∉ crud.submitted_chapters sub) VALID_CHAPTERS.


(** No two users have the same email. *)
Definition unique_emails (db : models.Session) : Prop :=
  NoDup (models.User.email <$> models.users db).

(** Newest first. *)
Definition newest_first (a b : models.PerformanceData.t) : Prop :=
  models.PerformanceData.session_timestamp b
  ≤ models.PerformanceData.session_timestamp a.

(** Whether a handler answered 403. *)
Definition forbidden {A} (x : result A) : bool :=
  match x with
  | Raise (HTTPException status_code _ _) => status_code =? 403
  | _ => false
  end.

(** The order of the curriculum on chapter entries. *)
Definition curriculum_le (a b : ChapterData) : Prop :=
  crud.sort_key a ≤ crud.sort_key b.

End record.

(** ** Sample data for the examples *)

Module sample.
Import config schemas models.

(** A password that holds the NUL character. *)
Definition NUL : string := String (Ascii.ascii_of_nat 0) "".

Definition refused (password : string) : bool :=
  match String.index 0 NUL password with
  | Some _ => true
  | None => false
  end.

Definition NullPasswordError : exn :=
  ValueError "bcrypt does not allow NULL bytes in password".

(** Stand-ins for the packages: a transparent password scheme, which
    refuses a password that holds NUL as passlib's bcrypt does, and
    tokens that are their subject. *)
Definition libraries : Libraries := {|
  pwd_context_verify := λ plain hashed,
    if refused plain then Raise NullPasswordError
    else Ok (String.eqb hashed ("hash of " +:+ plain));
  jwt_encode := λ sub _, sub;
  jwt_decode_sub := λ _ token, Some (Some token);
  EmailStr := λ s, Ok s;
  int_of_str := λ _, None
|}.

Definition hashing : Hashing := {|
  pwd_context_hash := λ _ password,
    if refused password then Raise NullPasswordError
    else Ok ("hash of " +:+ password)
|}.

Definition trainee : User.t := {|
  User.email := "ann@example.com";
  User.hashed_password := "hash of correct horse";
  User.role := "Trainee";
  User.trainee_name := "Ann";
  User.created_at := 0
|}.

Definition admin : User.t := {|
  User.email := "root@example.com";
  User.hashed_password := "hash of battery staple";
  User.role := "Admin";
  User.trainee_name := "Root";
  User.created_at := 0
|}.

Definition db : Session := {|
  users := [trainee; admin];
  performance_data := [];
  performance_data_seq := 0
|}.

(** A trainee whose name has characters beyond latin-1. *)
Definition li : User.t := {|
  User.email := "li@example.com";
  User.hashed_password := "hash of tr0ub4dor";
  User.role := "Trainee";
  User.trainee_name := "李雷";
  User.created_at := 0
|}.

Definition entry (c : string) (s : Z) (st : string) : ChapterData :=
  {| chapter := c; score := ScoreInt s; status := st |}.

(** The fully completed record with scores 9, 8, 7, 6, 8, 9, 10. *)
Definition all_completed : list ChapterData :=
  zip_with (λ c s, entry c s "Completed") VALID_CHAPTERS [9; 8; 7; 6; 8; 9; 10].

(** A submission that names the first chapter twice. *)
Definition twice : list ChapterData :=
  [entry "Briefing Room" 9 "Completed"; entry "Briefing Room" 8 "Completed"].

(** A chapter list whose one score is a string that [int] refuses. *)
Definition unreadable : list ChapterData :=
  [{| chapter := "Briefing Room"; score := ScoreStr "abc";
      status := "Completed" |}].

End sample.

(** * Properties *)

Import config schemas models.

(** ** The stable sort *)

Section SortFacts.
Context {A : Type} (key : A → Z).
Implicit Types (x : A) (l : list A).

Let le_key : relation A := λ a b, key a ≤ key b.

Lemma insert_by_key_Permutation x l : Py.insert_by_key key x l ≡ₚ x :: l.
Proof.
  induction l as [|y l IH]; simpl; [done|].
  destruct (key y <? key x); [|done].
  by rewrite IH, Permutation_swap.
Qed.

Lemma sort_by_key_Permutation l : Py.sort_by_key key l ≡ₚ l.
Proof.
  induction l as [|x l IH]; simpl; [done|].
  by rewrite insert_by_key_Permutation, IH.
Qed.

Lemma insert_by_key_sorted x l :
  StronglySorted le_key l → StronglySorted le_key (Py.insert_by_key key x l).
Proof.
  induction 1 as [|y l Hl IH Hy]; simpl.
  { repeat constructor. }
  destruct (Z.ltb_spec (key y) (key x)) as [Hlt|Hge].
  - constructor; [done|].
    rewrite insert_by_key_Permutation. constructor; [|done].
    unfold le_key. lia.
  - constructor; [by constructor|].
    constructor; [done|].
    eapply Forall_impl; [exact Hy|]. unfold le_key. intros z ?. lia.
Qed.

Lemma sort_by_key_sorted l : StronglySorted le_key (Py.sort_by_key key l).
Proof.
  induction l as [|x l IH]; simpl; [constructor|].
  by apply insert_by_key_sorted.
Qed.



End SortFacts.

(** ** Normalisation: [crud.complete_chapter_data] *)

Section Normalisation.
Implicit Types (sub r : list ChapterData) (c : string) (e : ChapterData).

Lemma fill_missing_app (S : gset string) r :
  crud.fill_missing S r
  = r ++ (crud.not_attempted <$> filter (λ c, c ∉ S) VALID_CHAPTERS).
Proof.
  unfold crud.fill_missing. generalize VALID_CHAPTERS. intros V.
  revert r. induction V as [|c V IH]; intros r; simpl.
  { by rewrite app_nil_r. }
  rewrite IH, filter_cons. destruct (decide (c ∉ S)) as [Hc|Hc].
  - rewrite bool_decide_eq_true_2 by done. by rewrite <-app_assoc.
  - by rewrite bool_decide_eq_false_2 by done.
Qed.

Lemma elem_of_submitted_chapters sub c :
  c ∈ crud.submitted_chapters sub ↔ c ∈ chapter <$> sub.
Proof. unfold crud.submitted_chapters. by rewrite elem_of_list_to_set. Qed.

Lemma complete_chapter_data_Permutation sub :
  crud.complete_chapter_data sub
  ≡ₚ sub ++ (crud.not_attempted <$> record.missing sub).
Proof.
  unfold crud.complete_chapter_data.
  by rewrite sort_by_key_Permutation, fill_missing_app.
Qed.

Lemma complete_chapter_data_sorted sub :
  StronglySorted record.curriculum_le (crud.complete_chapter_data sub).
Proof. apply sort_by_key_sorted. Qed.


Lemma NoDup_VALID_CHAPTERS : NoDup VALID_CHAPTERS.
Proof. compute_done. Qed.

(** The curriculum position is injective on the curriculum. *)
Lemma chapter_order_inj :
  Forall (λ c1, Forall (λ c2,
    default 999 (crud.chapter_order !! c1)
    = default 999 (crud.chapter_order !! c2) → c1 = c2)
    VALID_CHAPTERS) VALID_CHAPTERS.
Proof. compute_done. Qed.

Lemma VALID_CHAPTERS_sorted :
  StronglySorted (λ c1 c2, default 999 (crud.chapter_order !! c1)
                           ≤ default 999 (crud.chapter_order !! c2))
                 VALID_CHAPTERS.
Proof. compute_done. Qed.

Lemma ChapterData_valid_chapter e :
  ChapterData_valid e = true → chapter e ∈ VALID_CHAPTERS.
Proof.
  unfold ChapterData_valid, ChapterData_errors, validate_chapter.
  intros Hv%bool_decide_eq_true.
  destruct (decide (chapter e ∈ VALID_CHAPTERS)) as [|Hn]; [done|].
  rewrite bool_decide_eq_false_2 in Hv by done. discriminate.
Qed.

Lemma ChapterData_valid_not_attempted c :
  c ∈ VALID_CHAPTERS → ChapterData_valid (crud.not_attempted c) = true.
Proof.
  intros Hc. apply bool_decide_eq_true_2.
  unfold ChapterData_errors, validate_chapter.
  rewrite (bool_decide_eq_true_2 (_ ∈ VALID_CHAPTERS)) by done.
  by vm_compute.
Qed.

(** The chapters of the completed list, before sorting, when the
    submission names curriculum chapters only, and each once. *)
Lemma completed_chapters_Permutation sub :
  Forall (λ e, chapter e ∈ VALID_CHAPTERS) sub →
  NoDup (chapter <$> sub) →
  chapter <$> (sub ++ (crud.not_attempted <$> record.missing sub)) ≡ₚ VALID_CHAPTERS.
Proof.
  intros Hsub Hnd. rewrite fmap_app, <-list_fmap_compose.
  rewrite (list_fmap_ext _ id (record.missing sub)), list_fmap_id by done.
  apply NoDup_Permutation.
  - apply NoDup_app. split_and!; [done| |].
    + intros c Hc [Hm _]%list_elem_of_filter.
      by apply Hm, elem_of_submitted_chapters.
    + apply NoDup_filter, NoDup_VALID_CHAPTERS.
  - apply NoDup_VALID_CHAPTERS.
  - intros c. rewrite elem_of_app. unfold record.missing.
    rewrite list_elem_of_filter, elem_of_submitted_chapters. split.
    + intros [Hc|[_ Hc]]; [|done].
      apply list_elem_of_fmap in Hc as (e & -> & He).
      by eapply (proj1 (Forall_forall _ _) Hsub).
    + intros Hc. destruct (decide (c ∈ chapter <$> sub)); auto.
Qed.

Lemma complete_chapter_data_chapters sub :
  Forall (λ e, chapter e ∈ VALID_CHAPTERS) sub →
  NoDup (chapter <$> sub) →
  chapter <$> crud.complete_chapter_data sub = VALID_CHAPTERS.
Proof.
  intros Hsub Hnd.
  pose proof (completed_chapters_Permutation sub Hsub Hnd) as Hperm.
  rewrite <-complete_chapter_data_Permutation in Hperm.
  eapply StronglySorted_unique_strong; [| |exact VALID_CHAPTERS_sorted|done].
  - intros c1 c2 Hc1 Hc2 Hle1 Hle2. rewrite Hperm in Hc1.
    pose proof chapter_order_inj as Hinj.
    rewrite Forall_forall in Hinj. specialize (Hinj c1 Hc1).
    rewrite Forall_forall in Hinj. apply (Hinj c2 Hc2). simpl in *. lia.
  - eapply StronglySorted_fmap; [|apply complete_chapter_data_sorted].
    done.
Qed.

(** Two rearrangements of the same entries that list the same chapters,
    each once, are the same list. *)
Lemma Permutation_fmap_NoDup_eq {A B} (f : A → B) (l1 l2 : list A) :
  NoDup (f <$> l1) → l1 ≡ₚ l2 → f <$> l1 = f <$> l2 → l1 = l2.
Proof.
  revert l2. induction l1 as [|x l1 IH]; intros l2 Hnd Hperm Hf.
  { by apply Permutation_nil in Hperm. }
  destruct l2 as [|y l2]; csimpl in *; [done|].
  injection Hf as Hxy Hl.
  apply NoDup_cons in Hnd as [Hx Hnd].
  assert (x = y) as ->.
  { assert (x ∈ y :: l2) as Hin by (rewrite <-Hperm; left).
    apply elem_of_cons in Hin as [|Hin]; [done|].
    exfalso. apply Hx. rewrite Hl. by apply list_elem_of_fmap_2. }
  f_equal. apply IH; [done| |done]. by apply (inj (cons y)).
Qed.

End Normalisation.

Section Submissions.
Implicit Types (sub r : list ChapterData) (c : string) (e : ChapterData).

Lemma missing_Permutation sub sub' :
  sub' ≡ₚ sub → record.missing sub' = record.missing sub.
Proof.
  intros Hperm. unfold record.missing.
  assert (crud.submitted_chapters sub' = crud.submitted_chapters sub) as ->;
    [|done].
  unfold crud.submitted_chapters. by rewrite Hperm.
Qed.


Lemma length_remove_dups_le {A} `{EqDecision A} (l : list A) :
  (length (remove_dups l) ≤ length l)%nat.
Proof.
  induction l as [|x l IH]; simpl; [done|].
  destruct (decide_rel _ _ _); simpl; lia.
Qed.



End Submissions.

(** ** C1 and C2: what normalisation makes of a submission *)




(** C2. A submission of valid entries that names no chapter twice is
    stored as exactly seven entries whose chapters are the curriculum, in
    its order; every submitted entry is in the record as it was submitted,
    every chapter that was left out has the entry with score ["NA"] and
    status ["Not Completed"], the record holds nothing else, and any
    reordering of the submission gives the same record. *)
Theorem create_performance_data_subset
    (db : Session) (now : Z) (email : string) (sub : list ChapterData) :
  Forall (λ e, ChapterData_valid e = true) sub →
  NoDup (chapter <$> sub) →
  let r := PerformanceData.chapter_data
             (crud.create_performance_data db now email sub).2 in
  length r = 7%nat
  ∧ chapter <$> r = VALID_CHAPTERS
  ∧ (∀ e, e ∈ sub → e ∈ r)
  ∧ (∀ c, c ∈ VALID_CHAPTERS → c ∉ chapter <$> sub →
       {| chapter := c; score := ScoreStr "NA"; status := "Not Completed" |}
       ∈ r)
  ∧ (∀ e, e ∈ r →
       e ∈ sub
       ∨ ((chapter e ∉ chapter <$> sub)
          ∧ score e = ScoreStr "NA" ∧ status e = "Not Completed"))
  ∧ (∀ sub', sub' ≡ₚ sub →
       PerformanceData.chapter_data
         (crud.create_performance_data db now email sub').2 = r)
  ∧ record.normalized r.
Proof.
  intros Hvalid Hnd. simpl.
  assert (Forall (λ e, chapter e ∈ VALID_CHAPTERS) sub) as Hsub.
  { eapply Forall_impl; [exact Hvalid|]. apply ChapterData_valid_chapter. }
  pose proof (complete_chapter_data_chapters sub Hsub Hnd) as Hch.
  pose proof (complete_chapter_data_Permutation sub) as Hperm.
  split_and!.
  - by rewrite <-(length_fmap chapter), Hch.
  - done.
  - intros e He. rewrite Hperm. apply elem_of_app. by left.
  - intros c Hc Hn. rewrite Hperm. apply elem_of_app. right.
    apply (list_elem_of_fmap_2 crud.not_attempted).
    apply list_elem_of_filter. split; [|done].
    by rewrite elem_of_submitted_chapters.
  - intros e He. rewrite Hperm in He.
    apply elem_of_app in He as [He|(c & -> & Hc)%list_elem_of_fmap];
      [by left|right].
    apply list_elem_of_filter in Hc as [Hc _].
    by rewrite elem_of_submitted_chapters in Hc.
  - intros sub' Hsub'. symmetry.
    apply (Permutation_fmap_NoDup_eq chapter).
    + rewrite Hch. apply NoDup_VALID_CHAPTERS.
    + rewrite Hperm, complete_chapter_data_Permutation.
      by rewrite (missing_Permutation sub sub'), Hsub'.
    + rewrite Hch. symmetry. apply complete_chapter_data_chapters.
      * by rewrite Hsub'.
      * by rewrite Hsub'.
  - split; [done|]. rewrite Hperm. apply Forall_app. split; [done|].
    apply Forall_fmap, Forall_forall. intros c [_ Hc]%list_elem_of_filter.
    by apply ChapterData_valid_not_attempted.
Qed.

(** A submission of the last and the first chapter, in that order. *)
Lemma create_performance_data_subset_witness :
  let sub := [sample.entry "Debrief" 3 "Pending";
              sample.entry "Briefing Room" 9 "Completed"] in
  Forall (λ e, ChapterData_valid e = true) sub
  ∧ NoDup (chapter <$> sub)
  ∧ chapter <$> PerformanceData.chapter_data
                  (crud.create_performance_data
                     sample.db 1000 "ann@example.com" sub).2
    = VALID_CHAPTERS.
Proof.
  intros sub.
  assert (Forall (λ e, ChapterData_valid e = true) sub) as Hvalid
    by (repeat constructor).
  assert (NoDup (chapter <$> sub)) as Hnd by compute_done.
  split_and!; [exact Hvalid|exact Hnd|].
  destruct (create_performance_data_subset
              sample.db 1000 "ann@example.com" sub Hvalid Hnd)
    as (_ & Hch & _).
  exact Hch.
Defined.

(** ** Statistics: [pdf_generator.calculate_statistics] *)

Section Rounding.

(** [round_half_even_div a b] is an integer nearest to [a / b]. *)
Lemma round_half_even_div_nearest (a b : Z) :
  0 < b → 2 * Z.abs (b * Py.round_half_even_div a b - a) ≤ b.
Proof.
  intros Hb. unfold Py.round_half_even_div.
  pose proof (Z.div_mod a b ltac:(lia)) as Hdiv.
  pose proof (Z.mod_pos_bound a b Hb) as Hmod.
  destruct (Z.compare_spec (2 * (a `mod` b)) b) as [Heq|Hlt|Hgt];
    [destruct (Z.even (a `div` b))|..]; nia.
Qed.

(** The rounded mean of up to seven scores between 0 and 10, computed in
    binary floating point, is the mean rounded in exact arithmetic. *)
Lemma mean_round_table :
  Forall (λ n, Forall (λ p,
    (q ← Py.int_truediv p n; Ok (Py.float_round1 q))
    = Ok (record.one_decimal p n))
    (seqZ 0 (10 * n + 1))) (seqZ 1 7).
Proof. compute_done. Qed.

Lemma mean_round (p n : Z) :
  1 ≤ n ≤ 7 → 0 ≤ p ≤ 10 * n →
  ∃ q, Py.int_truediv p n = Ok q
       ∧ Py.float_round1 q = record.one_decimal p n.
Proof.
  intros Hn Hp. pose proof mean_round_table as Htable.
  rewrite Forall_forall in Htable.
  specialize (Htable n ltac:(apply elem_of_seqZ; lia)).
  rewrite Forall_forall in Htable.
  specialize (Htable p ltac:(apply elem_of_seqZ; lia)).
  destruct (Py.int_truediv p n) as [q|];
    cbn [mbind result_bind] in Htable; [|done].
  exists q. split; [done|]. by injection Htable.
Qed.

(** The same for the completion rate of a record of seven entries. *)
Lemma rate_round_table :
  Forall (λ c,
    (ratio ← Py.int_truediv c 7;
     percent ← Py.float_mul_int ratio 100;
     Ok (Py.float_round1 percent))
    = Ok (record.one_decimal (c * 100) 7))
    (seqZ 0 8).
Proof. compute_done. Qed.

Lemma rate_round (c : Z) :
  0 ≤ c ≤ 7 →
  ∃ ratio percent,
    Py.int_truediv c 7 = Ok ratio
    ∧ Py.float_mul_int ratio 100 = Ok percent
    ∧ Py.float_round1 percent = record.one_decimal (c * 100) 7.
Proof.
  intros Hc. pose proof rate_round_table as Htable.
  rewrite Forall_forall in Htable.
  specialize (Htable c ltac:(apply elem_of_seqZ; lia)).
  destruct (Py.int_truediv c 7) as [ratio|];
    cbn [mbind result_bind] in Htable; [|done].
  destruct (Py.float_mul_int ratio 100) as [percent|] eqn:Hpercent;
    cbn [mbind result_bind] in Htable; [|done].
  exists ratio, percent. split; [done|split; [done|]]. congruence.
Qed.

End Rounding.

Section Statistics.
Context `{Libraries}.
Implicit Types (r : list ChapterData) (e : ChapterData).

Lemma ChapterData_valid_score e :
  ChapterData_valid e = true →
  score e = ScoreStr "NA" ∨ ∃ i, score e = ScoreInt i ∧ 0 ≤ i ≤ 10.
Proof.
  unfold ChapterData_valid, ChapterData_errors.
  intros Hv%bool_decide_eq_true.
  apply app_eq_nil in Hv as [_ [Hv _]%app_eq_nil].
  unfold validate_score in Hv. destruct (score e) as [i|s].
  - right. exists i. split; [done|]. unfold MIN_SCORE, MAX_SCORE in Hv.
    destruct (Z.ltb_spec i 0); [done|].
    destruct (Z.ltb_spec 10 i); [done|]. lia.
  - left. destruct (String.eqb s "NA") eqn:Heq; [|done].
    apply String.eqb_eq in Heq. by rewrite Heq.
Qed.

Lemma ChapterData_valid_int_or_NA e :
  ChapterData_valid e = true → record.int_or_NA e.
Proof.
  intros [He|(i & He & _)]%ChapterData_valid_score;
    unfold record.int_or_NA; by rewrite He.
Qed.

Lemma completed_cons e r :
  record.completed (e :: r)
  = (if String.eqb (status e) "Completed" then 1 else 0) + record.completed r.
Proof.
  unfold record.completed, Py.len. rewrite filter_cons.
  destruct (String.eqb_spec (status e) "Completed");
    [rewrite decide_True by done|rewrite decide_False by done]; simpl; lia.
Qed.

Lemma scores_cons e r :
  record.scores (e :: r)
  = match score e with
    | ScoreInt i => i :: record.scores r
    | ScoreStr _ => record.scores r
    end.
Proof. unfold record.scores. csimpl. by destruct (score e). Qed.

Lemma completed_bounds r : 0 ≤ record.completed r ≤ Py.len r.
Proof.
  unfold record.completed, Py.len.
  pose proof (length_filter (λ c, status c = "Completed") r). lia.
Qed.

(** The loop counts the completed chapters and collects the integer
    scores, in order. *)
Lemma count_chapters_scores r (c : Z) (ts : list Z) :
  Forall record.int_or_NA r →
  pdf_generator.count_chapters r c ts
  = Ok (c + record.completed r, ts ++ record.scores r).
Proof.
  intros Hr. revert c ts.
  induction Hr as [|e r He Hr IH]; intros c ts; simpl.
  { unfold record.completed, record.scores. simpl.
    by rewrite Z.add_0_r, app_nil_r. }
  rewrite completed_cons. unfold record.int_or_NA in He.
  unfold record.scores. simpl. fold (record.scores r).
  destruct (score e) as [i|s]; simpl.
  - rewrite IH, <-app_assoc. simpl.
    destruct (String.eqb (status e) "Completed"); do 2 f_equal; lia.
  - subst s. simpl. rewrite IH.
    destruct (String.eqb (status e) "Completed"); do 2 f_equal; lia.
Qed.

Lemma sum_cons (a : Z) (l : list Z) : foldl Z.add a l = a + Py.sum l.
Proof.
  unfold Py.sum. revert a. induction l as [|i l IH]; intros a; simpl; [lia|].
  rewrite (IH (a + i)), (IH (0 + i)). lia.
Qed.

Lemma sum_bounds (l : list Z) :
  Forall (λ i, 0 ≤ i ≤ 10) l → 0 ≤ Py.sum l ≤ 10 * Py.len l.
Proof.
  unfold Py.len. induction 1 as [|i l Hi Hl IH]; [done|].
  change (Py.sum (i :: l)) with (foldl Z.add (0 + i) l).
  rewrite sum_cons, length_cons. lia.
Qed.

Lemma scores_valid r :
  Forall (λ e, ChapterData_valid e = true) r →
  Forall (λ i, 0 ≤ i ≤ 10) (record.scores r)
  ∧ Py.len (record.scores r) ≤ Py.len r.
Proof.
  unfold Py.len.
  induction 1 as [|e r He Hr [IH1 IH2]]; [by split|].
  rewrite scores_cons, length_cons.
  apply ChapterData_valid_score in He as [He|(i & He & Hi)]; rewrite He.
  - split; [done|lia].
  - rewrite length_cons. split; [by constructor|lia].
Qed.

(** What [calculate_statistics] computes on a list of entries whose
    scores are integers or ["NA"]. *)
Lemma calculate_statistics_unfold r :
  Forall record.int_or_NA r →
  pdf_generator.calculate_statistics r
  = (avg_score ←
       match record.scores r with
       | [] => Ok (Py.Int 0)
       | _ => q ← Py.int_truediv (Py.sum (record.scores r))
                                 (Py.len (record.scores r));
              Ok (Py.Float q)
       end;
     ratio ← Py.int_truediv (record.completed r) (Py.len r);
     percent ← Py.float_mul_int ratio 100;
     Ok {| pdf_generator.completed_count := record.completed r;
           pdf_generator.total_count := Py.len r;
           pdf_generator.average_score := Py.round1 avg_score;
           pdf_generator.completion_rate := Py.float_round1 percent |}).
Proof.
  intros Hr. unfold pdf_generator.calculate_statistics.
  by rewrite (count_chapters_scores r 0 [] Hr).
Qed.

(** The statistics of a normalised record. *)
Lemma calculate_statistics_record r :
  record.normalized r →
  pdf_generator.calculate_statistics r
  = Ok {| pdf_generator.completed_count := record.completed r;
          pdf_generator.total_count := 7;
          pdf_generator.average_score :=
            match record.scores r with
            | [] => Py.Int 0
            | _ => Py.Float (record.one_decimal
                               (Py.sum (record.scores r))
                               (Py.len (record.scores r)))
            end;
          pdf_generator.completion_rate :=
            record.one_decimal (record.completed r * 100) 7 |}.
Proof.
  intros [Hch Hvalid].
  assert (Py.len r = 7) as Hlen.
  { unfold Py.len. by rewrite <-(length_fmap chapter), Hch. }
  rewrite calculate_statistics_unfold
    by (eapply Forall_impl; [done|apply ChapterData_valid_int_or_NA]).
  destruct (scores_valid r Hvalid) as [Hscores Hn].
  pose proof (sum_bounds _ Hscores) as Hsum.
  pose proof (completed_bounds r) as Hc. rewrite Hlen in *.
  destruct (rate_round (record.completed r) Hc)
    as (ratio & percent & Hratio & Hpercent & Hround).
  destruct (record.scores r) as [|i l] eqn:Hs.
  - cbn [mbind result_bind]. rewrite Hratio. cbn [mbind result_bind].
    rewrite Hpercent. cbn [mbind result_bind]. by rewrite Hround.
  - rewrite <-Hs in *.
    assert (1 ≤ Py.len (record.scores r)) as Hpos
      by (rewrite Hs; unfold Py.len; simpl; lia).
    destruct (mean_round (Py.sum (record.scores r))
                (Py.len (record.scores r)) ltac:(lia) Hsum)
      as (q & Hq & Hqround).
    rewrite Hq. cbn [mbind result_bind]. rewrite Hratio.
    cbn [mbind result_bind]. rewrite Hpercent. cbn [mbind result_bind].
    rewrite Hround. simpl. by rewrite Hqround.
Qed.

End Statistics.

Section Decimals.

(** On a tie the quotient goes to the even integer. *)
Lemma round_half_even_div_even (a b : Z) :
  0 < b →
  2 * Z.abs (b * Py.round_half_even_div a b - a) = b →
  Z.even (Py.round_half_even_div a b) = true.
Proof.
  intros Hb. unfold Py.round_half_even_div.
  pose proof (Z.div_mod a b ltac:(lia)) as Hdiv.
  pose proof (Z.mod_pos_bound a b Hb) as Hmod.
  destruct (Z.compare_spec (2 * (a `mod` b)) b) as [Heq|Hlt|Hgt];
    [|intros ?; nia..].
  destruct (Z.even (a `div` b)) eqn:Heven; [done|]. intros _.
  by rewrite Z.add_1_r, Z.even_succ, <-Z.negb_even, Heven.
Qed.

Lemma tenths_nearest (a b : Z) :
  0 < b → record.nearest_tenth a b (record.tenths a b).
Proof.
  intros Hb. unfold record.nearest_tenth, record.tenths. split.
  - by apply round_half_even_div_nearest.
  - by apply round_half_even_div_even.
Qed.

Lemma tenths_bounds (a b : Z) :
  0 < b → 0 ≤ a ≤ 10 * b → 0 ≤ record.tenths a b ≤ 100.
Proof.
  intros Hb Ha. destruct (tenths_nearest a b Hb) as [Hnear _]. nia.
Qed.

(** The doubles of the table are those that reading the decimals back
    gives. *)
Lemma decimal_double_mean_table :
  Forall (λ k, record.decimal_double k = Some (Py.float_of_tenths false k))
         (seqZ 0 101).
Proof. compute_done. Qed.

Lemma decimal_double_rate_table :
  Forall (λ c, record.decimal_double (record.tenths (c * 100) 7)
               = Some (record.one_decimal (c * 100) 7))
         (seqZ 0 8).
Proof. compute_done. Qed.

(** Each double of the table has a mantissa of 53 bits and lies within
    half a unit in its last place of the decimal. *)
Lemma decimal_doubles_nearest :
  Forall (λ kf,
    match kf.2 with
    | S754_zero s => s = false ∧ kf.1 = 0
    | S754_finite s m e =>
        s = false ∧ e < 0 ∧ 2 ^ 52 ≤ Z.pos m < 2 ^ 53
        ∧ 2 * Z.abs (10 * Z.pos m - kf.1 * 2 ^ (- e)) ≤ 10
    | _ => False
    end) record.decimal_doubles.
Proof.
  unfold record.decimal_doubles.
  repeat (apply Forall_cons; split;
          [cbn [fst snd]; split_and?; first [done|by vm_compute]|]).
  constructor.
Qed.

Lemma decimal_double_mean (a b : Z) :
  0 < b → 0 ≤ a ≤ 10 * b →
  record.decimal_double (record.tenths a b) = Some (record.one_decimal a b).
Proof.
  intros Hb Ha. pose proof (tenths_bounds a b Hb Ha) as Hk.
  pose proof decimal_double_mean_table as Htable.
  rewrite Forall_forall in Htable.
  apply Htable, elem_of_seqZ. lia.
Qed.

Lemma decimal_double_rate (c : Z) :
  0 ≤ c ≤ 7 →
  record.decimal_double (record.tenths (c * 100) 7)
  = Some (record.one_decimal (c * 100) 7).
Proof.
  intros Hc. pose proof decimal_double_rate_table as Htable.
  rewrite Forall_forall in Htable.
  apply Htable, elem_of_seqZ. lia.
Qed.

End Decimals.

(** C3. On a normalised record [calculate_statistics] returns:
    [total_count], the length of the curriculum, 7; [completed_count], the
    number of entries whose status is "Completed"; [average_score], the int
    0 when no entry has a score, and otherwise the double of the decimal
    with one digit that is nearest to the mean of the scores that are not
    "NA" (a mean half way between two such decimals goes to the even one);
    [completion_rate], the double of the decimal with one digit nearest to
    [completed_count / total_count * 100]. On the fully completed record
    with scores 9, 8, 7, 6, 8, 9, 10 these are 7, 7, 8.1 and 100.0, and
    scores 8, 8, 8, 9, whose mean is 8.25, give 8.2. The doubles are
    written out by mantissa and exponent. *)
Theorem calculate_statistics_normalized `{Libraries} :
  (∀ r : list ChapterData, record.normalized r →
     ∃ stats,
       pdf_generator.calculate_statistics r = Ok stats
       ∧ pdf_generator.total_count stats = Py.len VALID_CHAPTERS
       ∧ pdf_generator.total_count stats = 7
       ∧ pdf_generator.completed_count stats = record.completed r
       ∧ (record.scores r = [] →
          pdf_generator.average_score stats = Py.Int 0)
       ∧ (record.scores r ≠ [] →
          ∃ (k : Z) (f : Py.float),
            record.nearest_tenth (Py.sum (record.scores r))
                                 (Py.len (record.scores r)) k
            ∧ record.decimal_double k = Some f
            ∧ pdf_generator.average_score stats = Py.Float f)
       ∧ ∃ (k : Z) (f : Py.float),
           record.nearest_tenth (pdf_generator.completed_count stats * 100)
                                (pdf_generator.total_count stats) k
           ∧ record.decimal_double k = Some f
           ∧ pdf_generator.completion_rate stats = f)
  ∧ (∀ r : list ChapterData,
       score <$> r = ScoreInt <$> [9; 8; 7; 6; 8; 9; 10] →
       Forall (λ e, status e = "Completed") r →
       pdf_generator.calculate_statistics r
       = Ok {| pdf_generator.completed_count := 7;
               pdf_generator.total_count := 7;
               pdf_generator.average_score :=
                 Py.Float (S754_finite false 4559894622712627 (-49));
               pdf_generator.completion_rate :=
                 S754_finite false 7036874417766400 (-46) |})
  ∧ (∀ r : list ChapterData, record.normalized r →
       record.scores r = [8; 8; 8; 9] →
       ∃ stats,
         pdf_generator.calculate_statistics r = Ok stats
         ∧ pdf_generator.average_score stats
           = Py.Float (S754_finite false 4616189618054758 (-49))).
Proof.
  split_and!.
  - intros r Hr. eexists. split; [by apply calculate_statistics_record|].
    cbn [pdf_generator.total_count pdf_generator.completed_count
         pdf_generator.average_score pdf_generator.completion_rate].
    destruct Hr as [Hch Hvalid].
    destruct (scores_valid r Hvalid) as [Hscores _].
    pose proof (sum_bounds _ Hscores) as Hsum.
    assert (Py.len r = 7) as Hlen.
    { unfold Py.len. by rewrite <-(length_fmap chapter), Hch. }
    pose proof (completed_bounds r) as Hc. rewrite Hlen in Hc.
    split_and!; try done.
    + by intros ->.
    + intros Hs.
      assert (0 < Py.len (record.scores r)) as Hpos.
      { destruct (record.scores r); [done|]. unfold Py.len. simpl. lia. }
      eexists (record.tenths (Py.sum (record.scores r))
                             (Py.len (record.scores r))), _.
      split_and!; [by apply tenths_nearest|by apply decimal_double_mean|].
      by destruct (record.scores r).
    + eexists (record.tenths (record.completed r * 100) 7), _.
      split_and!; [by apply tenths_nearest|by apply decimal_double_rate|done].
  - intros r Hs Hc.
    do 7 (destruct r as [|[? ? ?] r]; [by simplify_eq/=|]).
    destruct r; [|by simplify_eq/=].
    simplify_eq/=. repeat match goal with
                          | H : Forall _ _ |- _ => inv H
                          end.
    simplify_eq/=. by vm_compute.
  - intros r Hr Hs. eexists. split; [by apply calculate_statistics_record|].
    cbn [pdf_generator.average_score]. rewrite Hs. f_equal.
Qed.

(** The record of [sample.all_completed] is normalised, and its
    statistics are returned. *)
Lemma calculate_statistics_normalized_witness :
  record.normalized sample.all_completed
  ∧ ∃ stats,
      @pdf_generator.calculate_statistics sample.libraries
        sample.all_completed = Ok stats
      ∧ pdf_generator.total_count stats = 7.
Proof.
  assert (record.normalized sample.all_completed) as Hr.
  { split; [done|]. repeat constructor. }
  split; [exact Hr|].
  destruct (@calculate_statistics_normalized sample.libraries) as [Hall _].
  destruct (Hall sample.all_completed Hr) as (stats & Hstats & _ & H7 & _).
  exists stats. split; [exact Hstats|exact H7].
Defined.

(** ** C9: the two divisions of [calculate_statistics]

    First, the rounding of a bounded quotient never overflows. *)

Section Finite.


Lemma digits2_pos_size (p : positive) : digits2_pos p = Pos.size p.
Proof. induction p; simpl; congruence. Qed.

Lemma Zdigits2_le (m k : Z) : 0 ≤ k → 0 ≤ m < 2 ^ k → Zdigits2 m ≤ k.
Proof.
  intros Hk [Hm0 Hm]. destruct m as [|p|p]; simpl; [done| |lia].
  rewrite digits2_pos_size.
  pose proof (Pos.size_le p) as Hsize.
  apply Pos2Z.pos_le_pos in Hsize. rewrite Pos2Z.inj_pow in Hsize.
  change (Z.pos p~0) with (2 * Z.pos p) in Hsize.
  assert (2 ^ Z.pos (Pos.size p) < 2 ^ (k + 1)) as Hlt.
  { rewrite Z.pow_add_r by lia. lia. }
  apply Z.pow_lt_mono_r_iff in Hlt; lia.
Qed.

Lemma shr_1_m (mrs : shr_record) :
  0 ≤ shr_m mrs → shr_m (shr_1 mrs) = shr_m mrs `div` 2.
Proof.
  destruct mrs as [m r s]. simpl. intros Hm.
  destruct m as [|[p|p|]|]; try done; try lia.
  - change (Z.pos p~1) with (2 * Z.pos p + 1).
    apply (Z.div_unique _ _ _ 1); simpl; lia.
  - change (Z.pos p~0) with (2 * Z.pos p + 0).
    apply (Z.div_unique _ _ _ 0); simpl; lia.
Qed.

Lemma iter_shr_1_m (n : positive) (mrs : shr_record) :
  0 ≤ shr_m mrs →
  shr_m (SpecFloat.iter_pos shr_1 n mrs) = shr_m mrs `div` 2 ^ Z.pos n.
Proof.
  revert mrs. induction n as [n IH|n IH|]; intros mrs Hm; simpl.
  - assert (0 ≤ shr_m (shr_1 mrs)) as H1.
    { rewrite shr_1_m by done. by apply Z.div_pos. }
    assert (0 ≤ shr_m (SpecFloat.iter_pos shr_1 n (shr_1 mrs))) as H2.
    { rewrite IH by done. apply Z.div_pos; lia. }
    rewrite IH, IH, shr_1_m by done.
    assert (2 ^ Z.pos n~1 = 2 * 2 ^ Z.pos n * 2 ^ Z.pos n) as ->.
    { rewrite <-Z.mul_assoc, <-Z.pow_add_r, <-Z.pow_succ_r by lia.
      f_equal. lia. }
    rewrite !Z.div_div by lia. f_equal. ring.
  - assert (0 ≤ shr_m (SpecFloat.iter_pos shr_1 n mrs)) as H2.
    { rewrite IH by done. apply Z.div_pos; lia. }
    rewrite IH, IH by done.
    assert (2 ^ Z.pos n~0 = 2 ^ Z.pos n * 2 ^ Z.pos n) as ->.
    { rewrite <-Z.pow_add_r by lia. f_equal. lia. }
    by rewrite Z.div_div by lia.
  - by apply shr_1_m.
Qed.


Lemma shr_record_of_loc_m (m : Z) (l : location) :
  shr_m (shr_record_of_loc m l) = m.
Proof. by destruct l as [|[]]. Qed.

(** One alignment step of the rounding: the exponent becomes the larger
    of [e] and the canonical one, and the mantissa loses the bits below. *)
Lemma shr_fexp_spec (m e : Z) (l : location) :
  0 ≤ m →
  let e' := Z.max e (fexp Py.prec Py.emax (Zdigits2 m + e)) in
  ∃ mrs, shr_fexp Py.prec Py.emax m e l = (mrs, e')
         ∧ shr_m mrs = m `div` 2 ^ (e' - e).
Proof.
  intros Hm e'. unfold shr_fexp, shr.
  destruct (fexp Py.prec Py.emax (Zdigits2 m + e) - e) as [|n|n] eqn:Hn.
  - eexists. split; [f_equal; lia|].
    replace (e' - e) with 0 by lia.
    by rewrite shr_record_of_loc_m, Z.div_1_r.
  - eexists. split; [f_equal; lia|].
    rewrite iter_shr_1_m by (by rewrite shr_record_of_loc_m).
    rewrite shr_record_of_loc_m. do 2 f_equal. lia.
  - eexists. split; [f_equal; lia|].
    replace (e' - e) with 0 by lia.
    by rewrite shr_record_of_loc_m, Z.div_1_r.
Qed.

Lemma round_nearest_even_bounds (m : Z) (l : location) :
  m ≤ round_nearest_even m l ≤ m + 1.
Proof.
  unfold round_nearest_even.
  destruct l as [|[]]; [|destruct (Z.even m)|..]; lia.
Qed.

(** A number below [2 ^ 1022] is not rounded to infinity. *)
Lemma binary_round_aux_finite (s : bool) (m e k : Z) (l : location) :
  0 ≤ k → 0 ≤ m < 2 ^ k → k + e ≤ 1022 → e ≤ 971 →
  ∀ s', binary_round_aux Py.prec Py.emax s m e l ≠ S754_infinity s'.
Proof.
  intros Hk [Hm0 Hm] Hke He s'. unfold binary_round_aux.
  destruct (shr_fexp_spec m e l Hm0) as (mrs1 & -> & Hm1).
  pose proof (Zdigits2_le m k Hk (conj Hm0 Hm)) as Hd.
  set (e1 := Z.max e (fexp Py.prec Py.emax (Zdigits2 m + e))) in *.
  assert (e ≤ e1 ≤ 971) as He1.
  { subst e1. unfold fexp, emin, Py.prec, Py.emax. lia. }
  set (m1 := round_nearest_even (shr_m mrs1) (loc_of_shr_record mrs1)).
  assert (0 ≤ shr_m mrs1 < 2 ^ (1022 - e1)) as Hmrs1.
  { rewrite Hm1. split; [apply Z.div_pos; lia|].
    apply Z.div_lt_upper_bound; [lia|].
    rewrite <-Z.pow_add_r by lia.
    eapply Z.lt_le_trans; [exact Hm|].
    apply Z.pow_le_mono_r; lia. }
  assert (0 ≤ m1 < 2 ^ (1023 - e1)) as Hm1'.
  { pose proof (round_nearest_even_bounds (shr_m mrs1)
                  (loc_of_shr_record mrs1)) as Hr. fold m1 in Hr.
    split; [lia|].
    replace (1023 - e1) with (1 + (1022 - e1)) by lia.
    rewrite Z.pow_add_r by lia. lia. }
  destruct (shr_fexp_spec m1 e1 loc_Exact (proj1 Hm1')) as (mrs2 & -> & _).
  pose proof (Zdigits2_le m1 (1023 - e1) ltac:(lia) Hm1') as Hd1.
  destruct (shr_m mrs2); [done| |done].
  rewrite (proj2 (Z.leb_le _ _)); [done|].
  unfold fexp, emin, Py.prec, Py.emax. lia.
Qed.

(** The quotient of two ints, at most 10, is a float. *)
Lemma int_truediv_Ok (p n : Z) :
  1 ≤ n → 0 ≤ p ≤ 10 * n → ∃ q, Py.int_truediv p n = Ok q.
Proof.
  intros Hn Hp. unfold Py.int_truediv.
  rewrite (proj2 (Z.eqb_neq n 0)) by lia.
  destruct n as [|n|n]; [lia| |lia]. destruct p as [|p|p]; [by eexists| |lia].
  cbn [Py.int_exact SFdiv xorb].
  unfold SFdiv_core_binary.
  set (e' := Z.min _ _).
  assert (e' ≤ 0) as He' by (subst e'; lia).
  set (m' := match 0 - 0 - e' with 0 => _ | Z.pos _ => _ | Z.neg _ => _ end).
  assert (0 ≤ m' ≤ 10 * Z.pos n * 2 ^ (- e')) as Hm'.
  { subst m'. destruct (0 - 0 - e') as [|s|s] eqn:Hs; [|  |lia].
    - replace (- e') with 0 by lia. simpl. lia.
    - rewrite Z.shiftl_mul_pow2 by lia. replace (- e') with (Z.pos s) by lia.
      nia. }
  pose proof (Z.div_eucl_eq m' (Z.pos n) ltac:(done)) as Hdiv.
  pose proof (Z.mod_pos_bound m' (Z.pos n) ltac:(done)) as Hmod.
  unfold Z.modulo in Hmod.
  destruct (Z.div_eucl m' (Z.pos n)) as [q r].
  assert (0 ≤ q < 2 ^ (4 - e')) as Hq.
  { replace (4 - e') with (4 + - e') by lia.
    rewrite Z.pow_add_r by lia. change (2 ^ 4) with 16.
    pose proof (Z.pow_pos_nonneg 2 (- e') ltac:(lia) ltac:(lia)). nia. }
  pose proof (binary_round_aux_finite false q e' (4 - e')
                (new_location (Z.pos n) r) ltac:(lia) Hq ltac:(lia) ltac:(lia))
    as Hfin.
  destruct (binary_round_aux _ _ _ _ _ _) as [| s'| |] eqn:Hb;
    try by eexists.
  by destruct (Hfin s').
Qed.

End Finite.

Section Division.
Context `{Libraries}.
Implicit Types (r sub : list ChapterData) (e : ChapterData).

Lemma int_truediv_nonzero (a b : Z) :
  b ≠ 0 → Py.int_truediv a b ≠ Raise ZeroDivisionError.
Proof.
  intros Hb. unfold Py.int_truediv. rewrite (proj2 (Z.eqb_neq b 0)) by done.
  by destruct (SFdiv _ _ _ _).
Qed.

(** The loop raises nothing but the [ValueError] of [int]. *)
Lemma count_chapters_Raise r (c : Z) (ts : list Z) (x : exn) :
  pdf_generator.count_chapters r c ts = Raise x → ∃ msg, x = ValueError msg.
Proof.
  revert c ts. induction r as [|e r IH]; intros c ts; simpl; [done|].
  destruct (pdf_generator.score_not_NA (score e)); simpl; [|by apply IH].
  unfold pdf_generator.int_of_score.
  destruct (score e) as [i|s]; simpl; [by apply IH|].
  destruct (int_of_str s); simpl; [by apply IH|].
  intros [= <-]. by eexists.
Qed.

Lemma calculate_statistics_no_ZeroDivisionError r :
  r ≠ [] → pdf_generator.calculate_statistics r ≠ Raise ZeroDivisionError.
Proof.
  intros Hr. unfold pdf_generator.calculate_statistics.
  assert (Py.len r ≠ 0) as Hlen by (unfold Py.len; by destruct r).
  destruct (pdf_generator.count_chapters r 0 []) as [[c ts]|x] eqn:Hcount;
    cbn [mbind result_bind].
  - pose proof (int_truediv_nonzero c (Py.len r) Hlen) as Hratio.
    assert (∀ ratio, Py.float_mul_int ratio 100
                     = Ok (SFmul Py.prec Py.emax ratio
                             (S754_finite false 7036874417766400 (-46))))
      as Hmul by done.
    destruct ts as [|i ts]; cbn [mbind result_bind].
    + destruct (Py.int_truediv c (Py.len r)); cbn [mbind result_bind];
        [by rewrite Hmul|congruence].
    + pose proof (int_truediv_nonzero (Py.sum (i :: ts)) (Py.len (i :: ts))
                    ltac:(unfold Py.len; simpl; lia)) as Havg.
      destruct (Py.int_truediv (Py.sum _) _); cbn [mbind result_bind];
        [|congruence].
      destruct (Py.int_truediv c (Py.len r)); cbn [mbind result_bind];
        [by rewrite Hmul|congruence].
  - apply count_chapters_Raise in Hcount as [msg ->]. done.
Qed.

(** On valid entries, however many, the statistics are returned. *)
Lemma calculate_statistics_total r :
  r ≠ [] → Forall (λ e, ChapterData_valid e = true) r →
  ∃ stats, pdf_generator.calculate_statistics r = Ok stats.
Proof.
  intros Hr Hvalid.
  rewrite calculate_statistics_unfold
    by (eapply Forall_impl; [done|apply ChapterData_valid_int_or_NA]).
  assert (1 ≤ Py.len r) as Hlen by (unfold Py.len; destruct r; simpl; [done|lia]).
  destruct (scores_valid r Hvalid) as [Hscores _].
  pose proof (sum_bounds _ Hscores) as Hsum.
  pose proof (completed_bounds r) as Hc.
  destruct (int_truediv_Ok (record.completed r) (Py.len r) Hlen ltac:(lia))
    as [ratio Hratio].
  assert (∃ avg,
            match record.scores r with
            | [] => Ok (Py.Int 0)
            | _ => q ← Py.int_truediv (Py.sum (record.scores r))
                                      (Py.len (record.scores r));
                   Ok (Py.Float q)
            end = Ok avg) as [avg ->].
  { destruct (record.scores r) as [|i l] eqn:Hs; [by eexists|].
    rewrite <-Hs in *.
    destruct (int_truediv_Ok (Py.sum (record.scores r))
                (Py.len (record.scores r))
                ltac:(rewrite Hs; unfold Py.len; simpl; lia) Hsum) as [q ->].
    by eexists. }
  cbn [mbind result_bind]. rewrite Hratio. by eexists.
Qed.

Lemma length_missing sub :
  (7 ≤ length sub + length (record.missing sub))%nat.
Proof.
  unfold record.missing.
  pose proof (filter_app_complement (λ c, c ∈ crud.submitted_chapters sub)
                                     VALID_CHAPTERS) as Hsplit.
  apply Permutation_length in Hsplit. rewrite length_app in Hsplit.
  change (length VALID_CHAPTERS) with 7%nat in Hsplit.
  assert (length (filter (λ c, c ∈ crud.submitted_chapters sub)
                         VALID_CHAPTERS) ≤ length sub)%nat; [|lia].
  etrans; [|rewrite <-(length_fmap chapter sub); apply length_remove_dups_le].
  apply submseteq_length, NoDup_submseteq.
  - apply NoDup_filter, NoDup_VALID_CHAPTERS.
  - intros c [Hc _]%list_elem_of_filter.
    by apply elem_of_remove_dups, elem_of_submitted_chapters.
Qed.

Lemma complete_chapter_data_valid sub :
  Forall (λ e, ChapterData_valid e = true) sub →
  Forall (λ e, ChapterData_valid e = true) (crud.complete_chapter_data sub).
Proof.
  intros Hvalid. rewrite complete_chapter_data_Permutation.
  apply Forall_app. split; [done|].
  apply Forall_fmap, Forall_forall. intros c [_ Hc]%list_elem_of_filter.
  by apply ChapterData_valid_not_attempted.
Qed.

End Division.

(** C9. [calculate_statistics] divides [completed_count] by the number
    of entries with no guard: on the empty list it raises
    [ZeroDivisionError]. On a list that is not empty it never does, and it
    returns the statistics whenever the entries are valid. A record that
    [create_performance_data] stores has at least seven entries (exactly
    seven when no chapter was submitted twice), so the error cannot occur
    on it, and its statistics are returned when the submission was valid. *)
Theorem calculate_statistics_division `{Libraries} :
  pdf_generator.calculate_statistics [] = Raise ZeroDivisionError
  ∧ (∀ r : list ChapterData, r ≠ [] →
       pdf_generator.calculate_statistics r ≠ Raise ZeroDivisionError)
  ∧ (∀ r : list ChapterData, r ≠ [] →
       Forall (λ e, ChapterData_valid e = true) r →
       ∃ stats, pdf_generator.calculate_statistics r = Ok stats)
  ∧ (∀ (db : Session) (now : Z) (email : string) (sub : list ChapterData),
       let r := PerformanceData.chapter_data
                  (crud.create_performance_data db now email sub).2 in
       (7 ≤ length r)%nat
       ∧ (NoDup (chapter <$> sub) →
          Forall (λ e, ChapterData_valid e = true) sub → length r = 7%nat)
       ∧ pdf_generator.calculate_statistics r ≠ Raise ZeroDivisionError
       ∧ (Forall (λ e, ChapterData_valid e = true) sub →
          ∃ stats, pdf_generator.calculate_statistics r = Ok stats)).
Proof.
  split_and!.
  - done.
  - apply calculate_statistics_no_ZeroDivisionError.
  - apply calculate_statistics_total.
  - intros db now email sub. simpl.
    assert (7 ≤ length (crud.complete_chapter_data sub))%nat as Hlen.
    { rewrite complete_chapter_data_Permutation, length_app, length_fmap.
      apply length_missing. }
    assert (crud.complete_chapter_data sub ≠ []) as Hne.
    { intros Hnil. rewrite Hnil in Hlen. simpl in Hlen. lia. }
    split_and!; [done| | |].
    + intros Hnd Hvalid.
      rewrite <-(length_fmap chapter), complete_chapter_data_chapters;
        [done| |done].
      eapply Forall_impl; [exact Hvalid|]. apply ChapterData_valid_chapter.
    + by apply calculate_statistics_no_ZeroDivisionError.
    + intros Hvalid. apply calculate_statistics_total; [done|].
      by apply complete_chapter_data_valid.
Qed.

(** The record stored for [sample.twice] has statistics. *)
Lemma calculate_statistics_division_witness :
  Forall (λ e, ChapterData_valid e = true) sample.twice
  ∧ ∃ stats,
      @pdf_generator.calculate_statistics sample.libraries
        (PerformanceData.chapter_data
           (crud.create_performance_data
              sample.db 1000 "ann@example.com" sample.twice).2)
      = Ok stats.
Proof.
  assert (Forall (λ e, ChapterData_valid e = true) sample.twice) as Hvalid
    by (repeat constructor).
  split; [exact Hvalid|].
  destruct (@calculate_statistics_division sample.libraries)
    as (_ & _ & _ & Hrecord).
  destruct (Hrecord sample.db 1000 "ann@example.com" sample.twice)
    as (_ & _ & _ & Hstats).
  exact (Hstats Hvalid).
Defined.

(** The statistics are not returned on every list that is not empty, and
    a stored record need not have seven entries: a score that [int]
    refuses raises [ValueError], and the record stored for [sample.twice]
    has eight entries. *)
Lemma calculate_statistics_not_total :
  sample.unreadable ≠ []
  ∧ (∃ msg : string,
       @pdf_generator.calculate_statistics sample.libraries sample.unreadable
       = Raise (ValueError msg))
  ∧ (∀ stats,
       @pdf_generator.calculate_statistics sample.libraries sample.unreadable
       ≠ Ok stats)
  ∧ length (PerformanceData.chapter_data
              (crud.create_performance_data
                 sample.db 1000 "ann@example.com" sample.twice).2)
    = 8%nat.
Proof. split_and!; [done|by eexists|done|reflexivity]. Qed.

(** ** C4: the remark *)

Section Remark.
Context `{Libraries}.

Lemma select_remark_cases (stats : pdf_generator.Statistics) :
  0 ≤ pdf_generator.completed_count stats →
  0 < pdf_generator.total_count stats →
  let remark := pdf_generator.select_remark stats in
  (remark = pdf_generator.FullCompletion
   ↔ pdf_generator.completed_count stats = pdf_generator.total_count stats)
  ∧ (remark = pdf_generator.NotStarted
     ↔ pdf_generator.completed_count stats = 0)
  ∧ (remark = pdf_generator.Partial
     ↔ pdf_generator.completed_count stats ≠ pdf_generator.total_count stats
       ∧ pdf_generator.completed_count stats ≠ 0).
Proof.
  intros Hc Ht. unfold pdf_generator.select_remark. simpl.
  destruct (Z.eqb_spec (pdf_generator.completed_count stats)
                       (pdf_generator.total_count stats));
    [|destruct (Z.ltb_spec 0 (pdf_generator.completed_count stats))];
    split_and!; split; (done || lia || (intros; exfalso; lia)).
Qed.

End Remark.

Section Summary.
Context `{Libraries}.
Implicit Types (r : list ChapterData).

Lemma count_chapters_completed r (c c' : Z) (ts ts' : list Z) :
  pdf_generator.count_chapters r c ts = Ok (c', ts') →
  c' = c + record.completed r.
Proof.
  revert c ts. induction r as [|e r IH]; intros c ts; simpl.
  { intros [= <- <-]. unfold record.completed, Py.len. simpl. lia. }
  rewrite completed_cons.
  destruct (pdf_generator.score_not_NA (score e)); simpl.
  - destruct (pdf_generator.int_of_score (score e)); simpl; [|done].
    intros ->%IH. destruct (String.eqb (status e) "Completed"); lia.
  - intros ->%IH. destruct (String.eqb (status e) "Completed"); lia.
Qed.

(** The counts of any summary that [calculate_statistics] returns. *)
Lemma calculate_statistics_counts r (stats : pdf_generator.Statistics) :
  pdf_generator.calculate_statistics r = Ok stats →
  pdf_generator.completed_count stats = record.completed r
  ∧ pdf_generator.total_count stats = Py.len r
  ∧ r ≠ [].
Proof.
  intros Hstats.
  assert (r ≠ []) as Hr.
  { intros ->. by vm_compute in Hstats. }
  split_and!; [| |done]; revert Hstats;
    unfold pdf_generator.calculate_statistics;
    (destruct (pdf_generator.count_chapters r 0 []) as [[c ts]|]
       eqn:Hcount; cbn [mbind result_bind]; [|done]);
    apply count_chapters_completed in Hcount;
    (destruct (match ts with [] => _ | _ => _ end);
       cbn [mbind result_bind]; [|done]);
    (destruct (Py.int_truediv c (Py.len r));
       cbn [mbind result_bind]; [|done]);
    (destruct (Py.float_mul_int _ 100); cbn [mbind result_bind]; [|done]);
    intros [= <-]; simpl; lia.
Qed.

End Summary.

(** C4. For every summary that [calculate_statistics] returns, the remark
    of the report is the one of full completion exactly when
    [completed_count] equals [total_count], the one of a training not
    started exactly when [completed_count] is 0, and the one of partial
    completion in every other case. The report, with that remark, is
    produced for every normalised record and for every record stored from a
    valid submission. *)
Theorem generate_course_report_remark `{Libraries} :
  (∀ (r : list ChapterData) (stats : pdf_generator.Statistics),
     pdf_generator.calculate_statistics r = Ok stats →
     let remark := pdf_generator.select_remark stats in
     pdf_generator.generate_course_report r = Ok (stats, remark)
     ∧ (remark = pdf_generator.FullCompletion
        ↔ pdf_generator.completed_count stats
          = pdf_generator.total_count stats)
     ∧ (remark = pdf_generator.NotStarted
        ↔ pdf_generator.completed_count stats = 0)
     ∧ (remark = pdf_generator.Partial
        ↔ pdf_generator.completed_count stats
          ≠ pdf_generator.total_count stats
          ∧ pdf_generator.completed_count stats ≠ 0))
  ∧ (∀ r : list ChapterData, record.normalized r →
       ∃ stats, pdf_generator.generate_course_report r
                = Ok (stats, pdf_generator.select_remark stats))
  ∧ (∀ (db : Session) (now : Z) (email : string) (sub : list ChapterData),
       Forall (λ e, ChapterData_valid e = true) sub →
       ∃ stats,
         pdf_generator.generate_course_report
           (PerformanceData.chapter_data
              (crud.create_performance_data db now email sub).2)
         = Ok (stats, pdf_generator.select_remark stats)).
Proof.
  split_and!.
  - intros r stats Hstats remark.
    destruct (calculate_statistics_counts r stats Hstats) as (Hc & Ht & Hr).
    split.
    { unfold pdf_generator.generate_course_report. by rewrite Hstats. }
    apply select_remark_cases.
    + rewrite Hc. apply completed_bounds.
    + rewrite Ht. unfold Py.len. destruct r; [done|]. simpl. lia.
  - intros r Hr. unfold pdf_generator.generate_course_report.
    rewrite (calculate_statistics_record r Hr). by eexists.
  - intros db now email sub Hvalid.
    destruct (calculate_statistics_total (crud.complete_chapter_data sub))
      as [stats Hs].
    { pose proof (length_missing sub) as Hlen. intros Hnil.
      apply (f_equal length) in Hnil. revert Hnil.
      rewrite complete_chapter_data_Permutation, length_app, length_fmap.
      simpl. lia. }
    { by apply complete_chapter_data_valid. }
    exists stats. simpl. unfold pdf_generator.generate_course_report.
    by rewrite Hs.
Qed.

Lemma generate_course_report_remark_witness :
  record.normalized sample.all_completed
  ∧ ∃ stats,
      @pdf_generator.generate_course_report sample.libraries
        sample.all_completed = Ok (stats, pdf_generator.FullCompletion).
Proof.
  assert (record.normalized sample.all_completed) as Hr.
  { split; [done|]. repeat constructor. }
  split; [exact Hr|].
  destruct (@generate_course_report_remark sample.libraries)
    as (Hremark & Hreport & _).
  destruct (Hreport sample.all_completed Hr) as [stats Hstats].
  exists stats. rewrite Hstats. do 2 f_equal.
  assert (@pdf_generator.calculate_statistics sample.libraries
            sample.all_completed = Ok stats) as Hs.
  { unfold pdf_generator.generate_course_report in Hstats.
    destruct (pdf_generator.calculate_statistics _); by simplify_eq/=. }
  destruct (Hremark _ _ Hs) as (_ & Hfull & _). apply Hfull.
  vm_compute in Hs. by injection Hs as <-.
Defined.

(** ** C5 and C7: who may read whose data *)

Section Authorisation.
Context `{Libraries}.

(** The report raises no HTTP error of its own. *)
Lemma generate_course_report_not_forbidden (r : list ChapterData) :
  record.forbidden (pdf_generator.generate_course_report r) = false.
Proof.
  unfold pdf_generator.generate_course_report,
    pdf_generator.calculate_statistics.
  assert (∀ a b, Py.int_truediv a b = Raise ZeroDivisionError
                 ∨ Py.int_truediv a b = Raise OverflowError
                 ∨ ∃ q, Py.int_truediv a b = Ok q) as Hdiv.
  { intros a b. unfold Py.int_truediv.
    destruct (b =? 0); [by left|]. destruct (SFdiv _ _ _ _); eauto. }
  assert (∀ ratio, Py.float_mul_int ratio 100
                   = Ok (SFmul Py.prec Py.emax ratio
                           (S754_finite false 7036874417766400 (-46))))
    as Hmul by done.
  destruct (pdf_generator.count_chapters r 0 []) as [[c ts]|x] eqn:Hcount;
    cbn [mbind result_bind].
  - destruct ts as [|i ts]; cbn [mbind result_bind].
    + destruct (Hdiv c (Py.len r)) as [->|[->|[q ->]]];
        cbn [mbind result_bind]; [done..|by rewrite Hmul].
    + destruct (Hdiv (Py.sum (i :: ts)) (Py.len (i :: ts)))
        as [->|[->|[q ->]]]; cbn [mbind result_bind]; [done..|].
      destruct (Hdiv c (Py.len r)) as [->|[->|[q' ->]]];
        cbn [mbind result_bind]; [done..|by rewrite Hmul].
  - apply count_chapters_Raise in Hcount as [msg ->]. done.
Qed.

Lemma get_performance_guard (db : Session) (email : string)
    (current_user : User.t) :
  main.get_performance db email current_user
  = if bool_decide (User.email current_user = email
                    ∨ User.role current_user = "Admin")
    then match crud.get_user_by_email db email with
         | None => Raise (HTTPException 404
                            ("User not found with email: " +:+ email) [])
         | Some _ => Ok (crud.get_user_performance_data db email 0 100)
         end
    else Raise (HTTPException 403
                  "Not authorized to access this user's data" []).
Proof.
  unfold main.get_performance.
  destruct (String.eqb_spec (User.email current_user) email);
    destruct (String.eqb_spec (User.role current_user) "Admin");
    cbn [negb andb];
    [rewrite bool_decide_eq_true_2 by auto..
    |rewrite bool_decide_eq_false_2 by (by intros [|])]; done.
Qed.

Lemma download_report_guard (db : Session) (session_id : Z)
    (current_user : User.t) (performance : PerformanceData.t) :
  crud.get_performance_by_session_id db session_id = Some performance →
  main.download_report db session_id current_user
  = if bool_decide (User.email current_user
                    = PerformanceData.email performance
                    ∨ User.role current_user = "Admin")
    then match crud.get_user_by_email
                 db (PerformanceData.email performance) with
         | None => Raise AttributeError
         | Some user =>
             '(stats, remark) ←
               pdf_generator.generate_course_report
                 (PerformanceData.chapter_data performance);
             main.StreamingResponse user
               {| main.report_user := user;
                  main.report_session := performance;
                  main.report_statistics := stats;
                  main.report_remark := remark |}
         end
    else Raise (HTTPException 403
                  "Not authorized to download this report" []).
Proof.
  intros Hfind. unfold main.download_report. rewrite Hfind.
  destruct (String.eqb_spec (User.email current_user)
              (PerformanceData.email performance));
    destruct (String.eqb_spec (User.role current_user) "Admin");
    cbn [negb andb];
    [rewrite bool_decide_eq_true_2 by auto..
    |rewrite bool_decide_eq_false_2 by (by intros [|])]; done.
Qed.

End Authorisation.

(** C5. In [get_performance], and in [download_report] once the session
    is found, the requester is let through exactly when the requester's
    email is the owner's or the requester's role is "Admin"; every other
    request is answered 403. *)
Theorem self_or_admin `{Libraries} (db : Session) (current_user : User.t) :
  (∀ email : string,
     (record.forbidden (main.get_performance db email current_user) = false
      ↔ User.email current_user = email ∨ User.role current_user = "Admin")
     ∧ (record.forbidden (main.get_performance db email current_user) = true
        → main.get_performance db email current_user
          = Raise (HTTPException 403
                     "Not authorized to access this user's data" [])))
  ∧ (∀ (session_id : Z) (performance : PerformanceData.t),
       crud.get_performance_by_session_id db session_id = Some performance →
       (record.forbidden (main.download_report db session_id current_user)
        = false
        ↔ User.email current_user = PerformanceData.email performance
          ∨ User.role current_user = "Admin")
       ∧ (record.forbidden (main.download_report db session_id current_user)
          = true
          → main.download_report db session_id current_user
            = Raise (HTTPException 403
                       "Not authorized to download this report" []))).
Proof.
  split.
  - intros email. rewrite get_performance_guard.
    case_bool_decide as Hallowed.
    + destruct (crud.get_user_by_email db email); by split.
    + split; [|done]. by split.
  - intros session_id performance Hfind.
    rewrite (download_report_guard _ _ _ _ Hfind).
    case_bool_decide as Hallowed; [|split; [|done]; by split].
    destruct (crud.get_user_by_email db _); [|by split].
    pose proof (generate_course_report_not_forbidden
                  (PerformanceData.chapter_data performance)) as Hreport.
    destruct (pdf_generator.generate_course_report _) as [[stats rem]|x];
      cbn [mbind result_bind].
    + unfold main.StreamingResponse.
      destruct (Py.latin1_encodable _); by split.
    + simpl in *. rewrite Hreport. by split.
Qed.

(** The trainee of the sample reads her own data, not the admin's; the
    admin reads both. *)
Lemma self_or_admin_witness :
  crud.get_performance_by_session_id
    (crud.create_performance_data sample.db 1000 "ann@example.com"
                                  sample.twice).1 1
  = Some (crud.create_performance_data sample.db 1000 "ann@example.com"
                                       sample.twice).2
  ∧ record.forbidden
      (@main.download_report sample.libraries
         (crud.create_performance_data sample.db 1000 "ann@example.com"
                                       sample.twice).1 1 sample.admin)
    = false.
Proof.
  assert (crud.get_performance_by_session_id
            (crud.create_performance_data sample.db 1000 "ann@example.com"
                                          sample.twice).1 1
          = Some (crud.create_performance_data
                    sample.db 1000 "ann@example.com" sample.twice).2)
    as Hfind by reflexivity.
  split; [exact Hfind|].
  destruct (@self_or_admin sample.libraries
              (crud.create_performance_data sample.db 1000 "ann@example.com"
                                            sample.twice).1 sample.admin)
    as [_ Hreport].
  destruct (Hreport 1 _ Hfind) as [Hiff _].
  apply Hiff. right. reflexivity.
Defined.

(** C7, as the code has it. A requester who is authenticated asks for the
    data of an email that no user has: an "Admin" is answered 404, "User
    not found", and every other requester is answered 403, since the
    ownership check comes before the lookup of the target. *)
Theorem get_performance_unknown_user `{Libraries}
    (db : Session) (now : Z) (token : string)
    (current_user : User.t) (email : string) :
  auth.get_current_active_user db now token = Ok current_user →
  crud.get_user_by_email db email = None →
  main.get_performance db email current_user
  = if String.eqb (User.role current_user) "Admin"
    then Raise (HTTPException 404
                  ("User not found with email: " +:+ email) [])
    else Raise (HTTPException 403
                  "Not authorized to access this user's data" []).
Proof.
  intros Hauth Hnone.
  assert (User.email current_user ≠ email) as Hne.
  { unfold auth.get_current_active_user, auth.get_current_user in Hauth.
    destruct (auth.decode_access_token now token) as [sub|]; [|done].
    destruct (List.find _ (users db)) as [user|] eqn:Hfind; [|done].
    injection Hauth as ->. apply find_some in Hfind as [Hin _].
    apply (find_none _ _ Hnone) in Hin. by apply String.eqb_neq. }
  unfold main.get_performance. rewrite Hnone.
  rewrite (proj2 (String.eqb_neq _ _) Hne).
  by destruct (String.eqb (User.role current_user) "Admin").
Qed.

(** The trainee of the sample asks for an unknown email. *)
Lemma get_performance_unknown_user_witness :
  @auth.get_current_active_user sample.libraries sample.db 0
     "ann@example.com" = Ok sample.trainee
  ∧ crud.get_user_by_email sample.db "nobody@example.com" = None
  ∧ main.get_performance sample.db "nobody@example.com"
      sample.trainee
    = Raise (HTTPException 403
               "Not authorized to access this user's data" []).
Proof.
  assert (@auth.get_current_active_user sample.libraries sample.db 0
            "ann@example.com" = Ok sample.trainee) as Hauth by reflexivity.
  assert (crud.get_user_by_email sample.db "nobody@example.com" = None)
    as Hnone by reflexivity.
  split_and!; [exact Hauth|exact Hnone|].
  exact (@get_performance_unknown_user sample.libraries sample.db 0
           "ann@example.com" sample.trainee "nobody@example.com"
           Hauth Hnone).
Defined.

(** C7, as the specification states it, fails: an authenticated trainee
    who asks for an email that no user has is answered 403, not 404. *)
Lemma get_performance_unknown_user_forbidden :
  @auth.get_current_active_user sample.libraries sample.db 0
     "ann@example.com" = Ok sample.trainee
  ∧ crud.get_user_by_email sample.db "nobody@example.com" = None
  ∧ main.get_performance sample.db "nobody@example.com"
      sample.trainee
    ≠ Raise (HTTPException 404
               "User not found with email: nobody@example.com" [])
  ∧ record.forbidden
      (main.get_performance sample.db
         "nobody@example.com" sample.trainee) = true.
Proof. split_and!; by vm_compute. Qed.

(** ** C6: a failed login *)

(** C6. A failed login is answered with the 401 "Incorrect email or
    password" when no user has the email, and when a user has it and the
    password is verified and found wrong. The password is verified only
    when a user has the email, and an exception of [pwd_context.verify] is
    not caught: [login] then raises that exception, while the same
    password with an email that no user has is answered with the 401.
    The two failures differ, and tell whether the email is registered. *)
Theorem login_failure_outcome `{Libraries} (db : Session) (now : Z)
    (user_login : main.UserLogin) :
  let failure :=
    HTTPException 401 "Incorrect email or password"
                  [("WWW-Authenticate", "Bearer")] in
  (crud.get_user_by_email db (main.email user_login) = None →
   auth.authenticate_user db (main.email user_login)
                          (main.password user_login) = Ok None
   ∧ main.login db now user_login = Raise failure)
  ∧ (∀ user : User.t,
       crud.get_user_by_email db (main.email user_login) = Some user →
       auth.verify_password (main.password user_login)
                            (User.hashed_password user) = Ok false →
       auth.authenticate_user db (main.email user_login)
                              (main.password user_login) = Ok None
       ∧ main.login db now user_login = Raise failure)
  ∧ (∀ (user : User.t) (x : exn),
       crud.get_user_by_email db (main.email user_login) = Some user →
       auth.verify_password (main.password user_login)
                            (User.hashed_password user) = Raise x →
       auth.authenticate_user db (main.email user_login)
                              (main.password user_login) = Raise x
       ∧ main.login db now user_login = Raise x
       ∧ ∀ unknown : string,
           crud.get_user_by_email db unknown = None →
           main.login db now {| main.email := unknown;
                                main.password := main.password user_login |}
           = Raise failure
           ∧ (x ≠ failure →
              main.login db now user_login
              ≠ main.login db now
                  {| main.email := unknown;
                     main.password := main.password user_login |})).
Proof.
  assert (∀ ul,
            crud.get_user_by_email db (main.email ul) = None →
            auth.authenticate_user db (main.email ul) (main.password ul)
            = Ok None
            ∧ main.login db now ul
              = Raise (HTTPException 401 "Incorrect email or password"
                         [("WWW-Authenticate", "Bearer")])) as Hunknown.
  { intros ul Hnone. unfold main.login, auth.authenticate_user.
    unfold crud.get_user_by_email in Hnone. by rewrite Hnone. }
  intros failure. split_and!.
  - apply Hunknown.
  - intros user Hsome Hverify. unfold main.login, auth.authenticate_user.
    unfold crud.get_user_by_email in Hsome. by rewrite Hsome, Hverify.
  - intros user x Hsome Hverify.
    assert (main.login db now user_login = Raise x) as Hlogin.
    { unfold main.login, auth.authenticate_user.
      unfold crud.get_user_by_email in Hsome. by rewrite Hsome, Hverify. }
    split_and!; [|done|].
    + unfold auth.authenticate_user.
      unfold crud.get_user_by_email in Hsome. by rewrite Hsome, Hverify.
    + intros unknown Hnone.
      destruct (Hunknown {| main.email := unknown;
                            main.password := main.password user_login |}
                  Hnone) as [_ Hfail].
      split; [done|]. rewrite Hlogin, Hfail.
      intros Hx [= ->]. by apply Hx.
Qed.

(** On the sample, a password that holds NUL: with the email of the
    trainee the login raises the error of the password scheme, with an
    email that no user has it is answered 401. *)
Lemma login_failure_outcome_witness :
  crud.get_user_by_email sample.db "ann@example.com" = Some sample.trainee
  ∧ crud.get_user_by_email sample.db "nobody@example.com" = None
  ∧ @main.login sample.libraries sample.db 0
      {| main.email := "ann@example.com";
         main.password := "a" +:+ sample.NUL |}
    = Raise sample.NullPasswordError
  ∧ @main.login sample.libraries sample.db 0
      {| main.email := "nobody@example.com";
         main.password := "a" +:+ sample.NUL |}
    = Raise (HTTPException 401 "Incorrect email or password"
               [("WWW-Authenticate", "Bearer")])
  ∧ @main.login sample.libraries sample.db 0
      {| main.email := "ann@example.com";
         main.password := "a" +:+ sample.NUL |}
    ≠ @main.login sample.libraries sample.db 0
        {| main.email := "nobody@example.com";
           main.password := "a" +:+ sample.NUL |}.
Proof.
  destruct (@login_failure_outcome sample.libraries sample.db 0
              {| main.email := "ann@example.com";
                 main.password := "a" +:+ sample.NUL |})
    as (_ & _ & Hraise).
  destruct (Hraise sample.trainee sample.NullPasswordError
              eq_refl eq_refl) as (_ & Hlogin & Hother).
  destruct (Hother "nobody@example.com" eq_refl) as [Hfail Hne].
  split_and!; [reflexivity|reflexivity|exact Hlogin|exact Hfail|].
  apply Hne. discriminate.
Defined.

(** ** C10: an empty submission *)

(** C10. [POST /performance] with no chapter is answered with a validation
    error that says so, before the user is looked up and with nothing
    stored, although on the empty list [complete_chapter_data] would give
    the seven "NA" entries; and a request that is answered with success had
    at least one chapter. *)
Theorem post_performance_empty `{Libraries} (db : Session) (now : Z) :
  (∀ email : string,
     ∃ errors,
       main.post_performance db now
         {| schemas.email := email; chapters := [] |}
       = (db, Raise (RequestValidationError errors))
       ∧ "Value error, At least one chapter must be provided" ∈ errors)
  ∧ (∀ (body : PerformanceSubmit) (db' : Session)
       (response : main.PerformanceSubmitResponse),
       main.post_performance db now body = (db', Ok response) →
       chapters body ≠ [])
  ∧ crud.complete_chapter_data [] = crud.not_attempted <$> VALID_CHAPTERS
  ∧ length (crud.complete_chapter_data []) = 7%nat.
Proof.
  split_and!.
  - intros email. unfold main.post_performance, PerformanceSubmit_validate.
    simpl. destruct (EmailStr email) as [e|x]; simpl.
    + eexists. split; [done|]. apply list_elem_of_here.
    + eexists. split; [done|]. apply elem_of_app. right.
      apply list_elem_of_here.
  - intros body db' response Hpost Hnil.
    unfold main.post_performance, PerformanceSubmit_validate in Hpost.
    rewrite Hnil in Hpost. simpl in Hpost.
    destruct (EmailStr (schemas.email body)); simpl in Hpost; done.
  - by vm_compute.
  - by vm_compute.
Qed.

(** The submission of [sample.twice] is answered with success, and it is
    not empty. *)
Lemma post_performance_empty_witness :
  let body := {| schemas.email := "ann@example.com";
                 chapters := sample.twice |} in
  ∃ db' response,
    @main.post_performance sample.libraries sample.db 1000 body
    = (db', Ok response)
    ∧ chapters body ≠ [].
Proof.
  intros body.
  destruct (@main.post_performance sample.libraries sample.db 1000 body)
    as [db' [response|x]] eqn:Hpost; [|by vm_compute in Hpost].
  exists db', response. split; [reflexivity|].
  destruct (@post_performance_empty sample.libraries sample.db 1000)
    as (_ & Haccepted & _).
  exact (Haccepted body db' response Hpost).
Defined.

(** * Further properties of the code *)

(** ** Normalisation of any submission *)

Section SortedInput.
Context {A : Type} (key : A → Z).
Implicit Types (x : A) (l : list A).

(** Sorting a list that is sorted leaves it as it is. *)
Lemma sort_by_key_sorted_id l :
  StronglySorted (λ a b, key a ≤ key b) l → Py.sort_by_key key l = l.
Proof.
  induction 1 as [|x l Hl IH Hx]; simpl; [done|].
  rewrite IH. destruct l as [|y l']; simpl; [done|].
  apply Forall_cons in Hx as [Hxy _].
  by rewrite (proj2 (Z.ltb_ge (key y) (key x))) by lia.
Qed.


Lemma filter_Forall_nil (P : A → Prop) `{!∀ a, Decision (P a)} l :
  Forall (λ a, ¬ P a) l → filter P l = [].
Proof.
  induction 1 as [|x l Hx Hl IH]; [done|].
  by rewrite filter_cons_False.
Qed.


End SortedInput.

Section AnySubmission.
Implicit Types (sub : list ChapterData) (c : string) (e : ChapterData).




(** Every chapter of the curriculum is in the record. *)
Lemma complete_chapter_data_covers sub c :
  c ∈ VALID_CHAPTERS → c ∈ chapter <$> crud.complete_chapter_data sub.
Proof.
  intros Hc. rewrite complete_chapter_data_Permutation, fmap_app.
  apply elem_of_app.
  destruct (decide (c ∈ chapter <$> sub)) as [|Hn]; [by left|right].
  apply (list_elem_of_fmap_2' _ _ (crud.not_attempted c)); [|done].
  apply list_elem_of_fmap_2, list_elem_of_filter. split; [|done].
  by rewrite elem_of_submitted_chapters.
Qed.

End AnySubmission.

(** X1. Normalising a record that is normalised already changes nothing,
    whatever the submission it came from. *)
Theorem complete_chapter_data_idempotent (sub : list ChapterData) :
  crud.complete_chapter_data (crud.complete_chapter_data sub)
  = crud.complete_chapter_data sub.
Proof.
  set (out := crud.complete_chapter_data sub).
  unfold crud.complete_chapter_data at 1. rewrite fill_missing_app.
  assert (filter (λ c, c ∉ crud.submitted_chapters out) VALID_CHAPTERS = [])
    as ->.
  { apply filter_Forall_nil, Forall_forall. intros c Hc Hn. apply Hn.
    apply elem_of_submitted_chapters. by apply complete_chapter_data_covers. }
  simpl. rewrite app_nil_r. apply sort_by_key_sorted_id.
  apply complete_chapter_data_sorted.
Qed.


(** ** Validation and storage of a submission *)

Section Acceptance.
Context `{Libraries}.
Implicit Types (c : ChapterData) (l : list ChapterData).

Lemma value_errors_nil_Ok {A} (x : result A) (a : A) :
  x = Ok a → value_errors x = [].
Proof. by intros ->. Qed.


End Acceptance.

(** X3. A chapter entry passes the validators of [ChapterData] exactly
    when its chapter is in the curriculum, its score is "NA" or an integer
    from 0 to 10, and its status is one of the three statuses. *)
Theorem ChapterData_valid_iff (c : ChapterData) :
  ChapterData_valid c = true
  ↔ chapter c ∈ VALID_CHAPTERS
    ∧ (score c = ScoreStr "NA"
       ∨ ∃ i, score c = ScoreInt i ∧ MIN_SCORE ≤ i ≤ MAX_SCORE)
    ∧ status c ∈ VALID_STATUSES.
Proof.
  split.
  - intros Hvalid. split_and!.
    + by apply ChapterData_valid_chapter.
    + by apply ChapterData_valid_score.
    + revert Hvalid. unfold ChapterData_valid, ChapterData_errors.
      intros Hv%bool_decide_eq_true.
      apply app_eq_nil in Hv as [_ [_ Hv]%app_eq_nil].
      unfold validate_status in Hv. by case_bool_decide.
  - intros (Hc & Hs & Hst). apply bool_decide_eq_true_2.
    unfold ChapterData_errors, validate_chapter, validate_status.
    rewrite (bool_decide_eq_true_2 (_ ∈ VALID_CHAPTERS)) by done.
    rewrite (bool_decide_eq_true_2 (_ ∈ VALID_STATUSES)) by done.
    destruct Hs as [->|(i & -> & Hi)]; [done|].
    unfold validate_score, MIN_SCORE, MAX_SCORE in *.
    rewrite (proj2 (Z.ltb_ge i 0)), (proj2 (Z.ltb_ge 10 i)) by lia. done.
Qed.


(** ** The performance table *)

Section Table.
Implicit Types (db : Session) (p row : PerformanceData.t).

Lemma find_snoc_None {A} (f : A → bool) (l : list A) (x : A) :
  List.find f l = None →
  List.find f (l ++ [x]) = if f x then Some x else None.
Proof.
  induction l as [|y l IH]; simpl; [done|].
  destruct (f y); [done|]. apply IH.
Qed.

Lemma find_snoc_other {A} (f : A → bool) (l : list A) (x : A) :
  f x = false → List.find f (l ++ [x]) = List.find f l.
Proof.
  intros Hx. induction l as [|y l IH]; simpl; [by rewrite Hx|].
  by destruct (f y).
Qed.


Lemma StronglySorted_sublist {A} (R : relation A) (l k : list A) :
  l `sublist_of` k → StronglySorted R k → StronglySorted R l.
Proof.
  induction 1 as [|x l k Hlk IH|x l k Hlk IH]; intros Hk; [done|..].
  - apply StronglySorted_inv in Hk as [Hk Hx].
    constructor; [by apply IH|].
    eapply Forall_forall. intros y Hy.
    eapply (proj1 (Forall_forall _ _) Hx), sublist_subseteq; done.
  - apply StronglySorted_inv in Hk as [Hk _]. by apply IH.
Qed.

Lemma StronglySorted_mono {A} (R R' : relation A) (l : list A) :
  (∀ a b, R a b → R' a b) → StronglySorted R l → StronglySorted R' l.
Proof.
  intros HR. induction 1 as [|x l Hl IH Hx]; constructor; [done|].
  eapply Forall_impl; [exact Hx|]. apply HR.
Qed.

End Table.




Lemma get_user_performance_data_table (db : Session) (email : string)
    (skip limit : nat) :
  let rows := crud.get_user_performance_data db email skip limit in
  (∀ p, p ∈ rows → p ∈ performance_data db ∧ PerformanceData.email p = email)
  ∧ (length rows ≤ limit)%nat
  ∧ StronglySorted record.newest_first rows
  ∧ (skip = 0%nat →
     (length (filter (λ p, PerformanceData.email p = email)
                     (performance_data db)) ≤ limit)%nat →
     rows ≡ₚ filter (λ p, PerformanceData.email p = email)
                    (performance_data db)).
Proof.
  intros rows. unfold rows, crud.get_user_performance_data.
  set (own := filter (λ p, PerformanceData.email p = email)
                     (performance_data db)).
  set (sorted := Py.sort_by_key _ own).
  assert (take limit (drop skip sorted) `sublist_of` sorted) as Hsub.
  { etrans; [apply sublist_take|apply sublist_drop]. }
  split_and!.
  - intros p Hp. apply (sublist_subseteq _ _ Hsub) in Hp.
    unfold sorted in Hp. rewrite sort_by_key_Permutation in Hp.
    apply list_elem_of_filter in Hp as [? ?]. by split.
  - rewrite length_take. lia.
  - apply (StronglySorted_sublist _ _ _ Hsub).
    eapply StronglySorted_mono; [|apply sort_by_key_sorted].
    unfold record.newest_first. simpl. intros a b. lia.
  - intros -> Hlimit. rewrite drop_0, take_ge.
    + apply sort_by_key_Permutation.
    + unfold sorted. by rewrite sort_by_key_Permutation.
Qed.

(** X6. [get_user_performance_data] returns rows of the table that
    belong to the email, newest first, never more than [limit]; when
    nothing is skipped and the limit is not reached, it returns every row
    of the email. *)
Theorem get_user_performance_data_rows (db : Session) (email : string)
    (skip limit : nat) :
  let rows := crud.get_user_performance_data db email skip limit in
  (∀ p, p ∈ rows → p ∈ performance_data db ∧ PerformanceData.email p = email)
  ∧ (length rows ≤ limit)%nat
  ∧ StronglySorted record.newest_first rows
  ∧ (skip = 0%nat →
     (length (filter (λ p, PerformanceData.email p = email)
                     (performance_data db)) ≤ limit)%nat →
     rows ≡ₚ filter (λ p, PerformanceData.email p = email)
                    (performance_data db)).
Proof. apply get_user_performance_data_table. Qed.

Lemma get_user_performance_data_rows_witness :
  let db := (crud.create_performance_data sample.db 1000 "ann@example.com"
                                          sample.twice).1 in
  (length (filter (λ p, PerformanceData.email p = "ann@example.com")
                  (performance_data db)) ≤ 100)%nat
  ∧ crud.get_user_performance_data db "ann@example.com" 0 100
    ≡ₚ filter (λ p, PerformanceData.email p = "ann@example.com")
              (performance_data db).
Proof.
  intros db.
  assert (length (filter (λ p, PerformanceData.email p = "ann@example.com")
                         (performance_data db)) ≤ 100)%nat as Hlen
    by (vm_compute; lia).
  split; [exact Hlen|].
  destruct (get_user_performance_data_rows db "ann@example.com" 0 100)
    as (_ & _ & _ & Hall).
  exact (Hall eq_refl Hlen).
Defined.

(** ** Reading and reporting *)





(** The same submission for the trainee whose name is beyond latin-1: the
    record is stored, and its download raises. *)
Lemma submit_then_download_latin1 :
  let db := {| users := [sample.li]; performance_data := [];
               performance_data_seq := 0 |} in
  let performance := {| schemas.email := "li@example.com";
                        chapters := [sample.entry "Briefing Room" 9
                                                  "Completed"] |} in
  ∃ db' response,
    main.submit_performance db 1000 performance = (db', Ok response)
    ∧ @main.download_report sample.libraries db'
        (main.session_id response) sample.li = Raise UnicodeEncodeError.
Proof. intros db performance. by eexists _, _. Qed.

(** ** Tokens and roles *)

Section CurrentUser.
Context `{Libraries}.

Lemma get_current_user_Ok (db : Session) (now : Z) (token : string)
    (user : User.t) :
  auth.get_current_user db now token = Ok user →
  user ∈ users db
  ∧ auth.decode_access_token now token = Some (User.email user).
Proof.
  unfold auth.get_current_user.
  destruct (auth.decode_access_token now token) as [email|]; [|done].
  destruct (List.find _ (users db)) as [row|] eqn:Hfind; [|done].
  intros [= ->]. apply find_some in Hfind as [Hin Heq].
  apply String.eqb_eq in Heq as ->. split; [|done].
  by apply list_elem_of_In.
Qed.

Lemma get_current_user_Raise (db : Session) (now : Z) (token : string)
    (x : exn) :
  auth.get_current_user db now token = Raise x →
  x = auth.credentials_exception.
Proof.
  unfold auth.get_current_user.
  destruct (auth.decode_access_token now token) as [email|];
    [|by intros [= <-]].
  destruct (List.find _ (users db)); [done|by intros [= <-]].
Qed.

End CurrentUser.

(** X9. The user that [get_current_user] returns is a row of the users
    table whose email is the subject of the token. It fails in one way
    only: a token that does not decode, a token with no subject and a
    subject that no user has all raise the same 401. *)
Theorem get_current_user_outcome `{Libraries} (db : Session) (now : Z)
    (token : string) :
  (∀ user : User.t,
     auth.get_current_user db now token = Ok user →
     user ∈ users db
     ∧ jwt_decode_sub now token = Some (Some (User.email user)))
  ∧ (∀ x : exn,
       auth.get_current_user db now token = Raise x →
       x = HTTPException 401 "Could not validate credentials"
                         [("WWW-Authenticate", "Bearer")])
  ∧ (jwt_decode_sub now token = None ∨ jwt_decode_sub now token = Some None
     ∨ (∃ email, jwt_decode_sub now token = Some (Some email)
                 ∧ crud.get_user_by_email db email = None) →
     auth.get_current_user db now token
     = Raise (HTTPException 401 "Could not validate credentials"
                            [("WWW-Authenticate", "Bearer")])).
Proof.
  split_and!.
  - intros user [Hin Hsub]%get_current_user_Ok. split; [done|].
    unfold auth.decode_access_token in Hsub.
    by destruct (jwt_decode_sub now token) as [[?|]|]; simplify_eq.
  - apply get_current_user_Raise.
  - unfold auth.get_current_user, auth.decode_access_token,
      crud.get_user_by_email.
    intros [->|[->|(email & -> & ->)]]; done.
Qed.

Lemma get_current_user_outcome_witness :
  @auth.get_current_user sample.libraries sample.db 0 "root@example.com"
  = Ok sample.admin
  ∧ sample.admin ∈ users sample.db.
Proof.
  assert (@auth.get_current_user sample.libraries sample.db 0
            "root@example.com" = Ok sample.admin) as Huser by reflexivity.
  split; [exact Huser|].
  destruct (@get_current_user_outcome sample.libraries sample.db 0
              "root@example.com") as (Hok & _).
  destruct (Hok sample.admin Huser) as [Hin _]. exact Hin.
Defined.

(** X10. [get_current_admin_user] returns a user exactly when
    [get_current_user] returns that user and the role of the user is
    "Admin"; an authenticated user of any other role is answered 403, and
    a request that is not authenticated 401. *)
Theorem get_current_admin_user_outcome `{Libraries} (db : Session) (now : Z)
    (token : string) :
  (∀ user : User.t,
     auth.get_current_admin_user db now token = Ok user
     ↔ auth.get_current_user db now token = Ok user
       ∧ User.role user = "Admin")
  ∧ (∀ user : User.t,
       auth.get_current_user db now token = Ok user →
       User.role user ≠ "Admin" →
       auth.get_current_admin_user db now token
       = Raise (HTTPException 403
                  "Not enough permissions. Admin access required." []))
  ∧ (∀ x : exn,
       auth.get_current_user db now token = Raise x →
       auth.get_current_admin_user db now token
       = Raise (HTTPException 401 "Could not validate credentials"
                              [("WWW-Authenticate", "Bearer")])).
Proof.
  unfold auth.get_current_admin_user. split_and!.
  - intros user.
    destruct (auth.get_current_user db now token) as [row|x];
      cbn [mbind result_bind]; [|by split; [|intros [? _]]].
    destruct (String.eqb_spec (User.role row) "Admin"); simpl; split.
    + by intros [= <-].
    + by intros [[= <-] _].
    + done.
    + by intros [[= <-] ?].
  - intros user -> Hrole. cbn [mbind result_bind].
    by rewrite (proj2 (String.eqb_neq _ _) Hrole).
  - intros x Hx. rewrite Hx. cbn [mbind result_bind].
    by apply get_current_user_Raise in Hx as ->.
Qed.

Lemma get_current_admin_user_outcome_witness :
  @auth.get_current_user sample.libraries sample.db 0 "ann@example.com"
  = Ok sample.trainee
  ∧ User.role sample.trainee ≠ "Admin"
  ∧ @auth.get_current_admin_user sample.libraries sample.db 0
      "ann@example.com"
    = Raise (HTTPException 403
               "Not enough permissions. Admin access required." []).
Proof.
  assert (@auth.get_current_user sample.libraries sample.db 0
            "ann@example.com" = Ok sample.trainee) as Huser by reflexivity.
  assert (User.role sample.trainee ≠ "Admin") as Hrole by discriminate.
  split_and!; [exact Huser|exact Hrole|].
  destruct (@get_current_admin_user_outcome sample.libraries sample.db 0
              "ann@example.com") as (_ & Hforbidden & _).
  exact (Hforbidden sample.trainee Huser Hrole).
Defined.

(** X11. A login that succeeds returned a token for a user of the table
    who has the email of the request and whose stored hash verifies the
    password: a bearer token whose subject is that email and that expires
    thirty days later. When the library decodes what it encoded, until the
    expiry, [get_current_user] returns that same user for the token at any
    time before the expiry. *)
Theorem login_then_current_user `{Libraries} (db : Session) (now : Z)
    (user_login : main.UserLogin) (token : main.Token) :
  (∀ (sub : string) (exp now' : Z),
     now' < exp → jwt_decode_sub now' (jwt_encode sub exp) = Some (Some sub)) →
  main.login db now user_login = Ok token →
  ∃ user : User.t,
    user ∈ users db
    ∧ User.email user = main.email user_login
    ∧ auth.verify_password (main.password user_login)
                           (User.hashed_password user) = Ok true
    ∧ main.token_type token = "bearer"
    ∧ main.access_token token
      = jwt_encode (main.email user_login) (now + 30 * 86400)
    ∧ (∀ now' : Z, now' < now + 30 * 86400 →
         auth.get_current_user db now' (main.access_token token) = Ok user).
Proof.
  intros Hjwt. unfold main.login, auth.authenticate_user.
  destruct (List.find _ (users db)) as [user|] eqn:Hfind; [|done].
  destruct (auth.verify_password _ _) as [[|]|x] eqn:Hverify; simpl;
    [|done..].
  intros [= <-]. simpl.
  pose proof Hfind as [Hin Heq]%find_some.
  apply String.eqb_eq in Heq.
  exists user. split_and!; try done.
  - by apply list_elem_of_In.
  - unfold auth.create_access_token, auth.seconds_of_days,
      ACCESS_TOKEN_EXPIRE_DAYS. simpl. by rewrite Heq.
  - intros now' Hnow. unfold auth.get_current_user,
      auth.decode_access_token, auth.create_access_token,
      auth.seconds_of_days, ACCESS_TOKEN_EXPIRE_DAYS. simpl.
    rewrite Hjwt by lia. by rewrite Heq, Hfind.
Qed.

Lemma login_then_current_user_witness :
  let user_login := {| main.email := "ann@example.com";
                       main.password := "correct horse" |} in
  (∀ (sub : string) (exp now' : Z),
     now' < exp →
     @jwt_decode_sub sample.libraries now'
        (@jwt_encode sample.libraries sub exp) = Some (Some sub))
  ∧ ∃ token,
      @main.login sample.libraries sample.db 0 user_login = Ok token
      ∧ @auth.get_current_user sample.libraries sample.db 5
          (main.access_token token) = Ok sample.trainee.
Proof.
  intros user_login.
  assert (∀ (sub : string) (exp now' : Z),
            now' < exp →
            @jwt_decode_sub sample.libraries now'
               (@jwt_encode sample.libraries sub exp) = Some (Some sub))
    as Hjwt by reflexivity.
  split; [exact Hjwt|].
  destruct (@main.login sample.libraries sample.db 0 user_login)
    as [token|x] eqn:Hlogin; [|by vm_compute in Hlogin].
  exists token. split; [reflexivity|].
  destruct (@login_then_current_user sample.libraries sample.db 0
              user_login token Hjwt Hlogin)
    as (user & _ & _ & _ & _ & Htoken & Hcurrent).
  rewrite (Hcurrent 5 ltac:(lia)). f_equal.
  vm_compute in Hlogin. injection Hlogin as <-.
  specialize (Hcurrent 5 ltac:(lia)). vm_compute in Hcurrent.
  by injection Hcurrent as <-.
Defined.

(** ** Statistics of any chapter list *)

Section AnyList.
Context `{Libraries}.
Implicit Types (r : list ChapterData) (e : ChapterData).

(** The loop of the report and the comprehension of the dashboard collect
    the same scores and fail on the same entry. *)
Lemma count_chapters_frontend r (c : Z) (ts : list Z) :
  pdf_generator.count_chapters r c ts
  = (s ← frontend.scores r; Ok (c + record.completed r, ts ++ s)).
Proof.
  revert c ts. induction r as [|e r IH]; intros c ts; simpl.
  { unfold record.completed, Py.len. simpl. by rewrite Z.add_0_r, app_nil_r. }
  rewrite completed_cons.
  destruct (pdf_generator.score_not_NA (score e)); simpl.
  - destruct (pdf_generator.int_of_score (score e)) as [i|x]; simpl; [|done].
    rewrite IH. destruct (frontend.scores r) as [s|x]; simpl; [|done].
    rewrite <-app_assoc. simpl.
    destruct (String.eqb (status e) "Completed"); do 2 f_equal; lia.
  - rewrite IH. destruct (frontend.scores r) as [s|x]; simpl; [|done].
    destruct (String.eqb (status e) "Completed"); do 2 f_equal; lia.
Qed.

(** An entry on which [int] fails: a string score that is not "NA" and
    that [int] rejects. *)
Lemma scores_Raise r :
  (∃ x, frontend.scores r = Raise x)
  ↔ Exists (λ e, ∃ s, score e = ScoreStr s ∧ s ≠ "NA" ∧ int_of_str s = None)
           r.
Proof.
  assert (∀ (X : result (list Z)) (i : Z),
            (∃ x, (l ← X; Ok (i :: l)) = Raise x) ↔ (∃ x, X = Raise x))
    as Hbind.
  { intros [l|x0] i; simpl; split; intros [x Hx]; by eauto. }
  induction r as [|e r IH]; simpl.
  { split; [by intros [? ?]|by intros ?%Exists_nil]. }
  rewrite Exists_cons, <-IH. unfold pdf_generator.int_of_score.
  destruct (score e) as [i|s] eqn:Hscore; simpl.
  - rewrite Hbind. split; [by right|]. by intros [(? & ? & _)|?].
  - destruct (String.eqb_spec s "NA") as [->|Hs]; simpl.
    { split; [by right|]. by intros [(? & [= <-] & ? & _)|?]. }
    destruct (int_of_str s) as [i|] eqn:Hint; simpl.
    + rewrite Hbind. split; [by right|].
      intros [(? & [= <-] & _ & ?)|?]; [congruence|done].
    + split; [|eauto]. intros _. left. eauto.
Qed.

Lemma scores_Raise_ValueError r (x : exn) :
  frontend.scores r = Raise x → ∃ msg, x = ValueError msg.
Proof.
  induction r as [|e r IH]; simpl; [done|].
  destruct (pdf_generator.score_not_NA (score e)); [|done].
  unfold pdf_generator.int_of_score.
  destruct (score e) as [i|s]; simpl.
  - destruct (frontend.scores r); simpl; [done|]. intros [= <-]. by apply IH.
  - destruct (int_of_str s); simpl; [|intros [= <-]; eauto].
    destruct (frontend.scores r); simpl; [done|]. intros [= <-]. by apply IH.
Qed.

Lemma sum_ones {A} (l : list A) : Py.sum ((λ _, 1) <$> l) = Py.len l.
Proof.
  unfold Py.len. induction l as [|a l IH]; [done|].
  change (Py.sum ((λ _, 1) <$> a :: l))
    with (foldl Z.add (0 + 1) ((λ _, 1) <$> l)).
  rewrite sum_cons, IH, length_cons. lia.
Qed.

End AnyList.

(** X12. Whatever the list, a summary that [calculate_statistics] returns
    has for [total_count] the number of entries, at least one, and for
    [completed_count] the number of entries whose status is "Completed",
    between 0 and [total_count]. *)
Theorem calculate_statistics_counts_bounds `{Libraries}
    (r : list ChapterData) (stats : pdf_generator.Statistics) :
  pdf_generator.calculate_statistics r = Ok stats →
  pdf_generator.total_count stats = Py.len r
  ∧ 1 ≤ pdf_generator.total_count stats
  ∧ pdf_generator.completed_count stats
    = Py.len (filter (λ e, status e = "Completed") r)
  ∧ 0 ≤ pdf_generator.completed_count stats
      ≤ pdf_generator.total_count stats.
Proof.
  intros (Hc & Ht & Hr)%calculate_statistics_counts.
  pose proof (completed_bounds r) as Hb. rewrite Hc, Ht.
  split_and!; try done; try lia.
  unfold Py.len. destruct r; [done|]. simpl. lia.
Qed.

Lemma calculate_statistics_counts_bounds_witness :
  ∃ stats,
    @pdf_generator.calculate_statistics sample.libraries sample.twice
    = Ok stats
    ∧ pdf_generator.total_count stats = 2.
Proof.
  destruct (@pdf_generator.calculate_statistics sample.libraries sample.twice)
    as [stats|x] eqn:Hstats; [|by vm_compute in Hstats].
  exists stats. split; [reflexivity|].
  destruct (@calculate_statistics_counts_bounds sample.libraries
              sample.twice stats Hstats) as [Ht _].
  exact Ht.
Defined.

(** X13. [calculate_statistics] raises [ValueError] exactly when some
    entry has a string score that is not "NA" and that [int] rejects; this
    happens before any division, also on a list that is not empty. *)
Theorem calculate_statistics_ValueError `{Libraries} (r : list ChapterData) :
  (∃ msg, pdf_generator.calculate_statistics r = Raise (ValueError msg))
  ↔ Exists (λ e, ∃ s, score e = ScoreStr s ∧ s ≠ "NA"
                      ∧ int_of_str s = None) r.
Proof.
  rewrite <-scores_Raise. unfold pdf_generator.calculate_statistics.
  rewrite count_chapters_frontend.
  destruct (frontend.scores r) as [s|x] eqn:Hs; cbn [mbind result_bind].
  - split; [|by intros [? ?]]. intros [msg Hmsg]. exfalso. revert Hmsg.
    assert (∀ a b, Py.int_truediv a b = Raise ZeroDivisionError
                   ∨ Py.int_truediv a b = Raise OverflowError
                   ∨ ∃ q, Py.int_truediv a b = Ok q) as Hdiv.
    { intros a b. unfold Py.int_truediv.
      destruct (b =? 0); [by left|]. destruct (SFdiv _ _ _ _); eauto. }
    assert (∀ ratio, Py.float_mul_int ratio 100
                     = Ok (SFmul Py.prec Py.emax ratio
                             (S754_finite false 7036874417766400 (-46))))
      as Hmul by done.
    cbn [app]. destruct s as [|i s]; cbn [mbind result_bind].
    + destruct (Hdiv (0 + record.completed r) (Py.len r))
        as [->|[->|[q ->]]]; cbn [mbind result_bind]; [done..|].
      by rewrite Hmul.
    + destruct (Hdiv (Py.sum (i :: s)) (Py.len (i :: s)))
        as [->|[->|[q ->]]]; cbn [mbind result_bind]; [done..|].
      destruct (Hdiv (0 + record.completed r) (Py.len r))
        as [->|[->|[q' ->]]]; cbn [mbind result_bind]; [done..|].
      by rewrite Hmul.
  - split; [eauto|]. intros _.
    apply scores_Raise_ValueError in Hs as [msg ->]. eauto.
Qed.

(** X14. A record with at least one entry, all scores "NA" and no entry
    completed, however long: the average is the int 0, the completion rate
    is 0.0 and the remark is the one of a training not started. *)
Theorem calculate_statistics_nothing_done `{Libraries}
    (r : list ChapterData) :
  r ≠ [] →
  Forall (λ e, score e = ScoreStr "NA") r →
  Forall (λ e, status e ≠ "Completed") r →
  pdf_generator.generate_course_report r
  = Ok ({| pdf_generator.completed_count := 0;
           pdf_generator.total_count := Py.len r;
           pdf_generator.average_score := Py.Int 0;
           pdf_generator.completion_rate := S754_zero false |},
        pdf_generator.NotStarted).
Proof.
  intros Hr Hna Hnone. unfold pdf_generator.generate_course_report.
  rewrite calculate_statistics_unfold.
  2: { eapply Forall_impl; [exact Hna|]. unfold record.int_or_NA.
       by intros e ->. }
  assert (record.scores r = []) as ->.
  { clear Hr Hnone. induction Hna as [|e r He Hr IH]; [done|].
    by rewrite scores_cons, He. }
  assert (record.completed r = 0) as ->.
  { clear Hr Hna. induction Hnone as [|e r He Hr IH]; [done|].
    rewrite completed_cons, IH.
    by rewrite (proj2 (String.eqb_neq _ _) He). }
  cbn [mbind result_bind].
  assert (Py.int_truediv 0 (Py.len r) = Ok (S754_zero false)) as ->.
  { unfold Py.int_truediv, Py.len. destruct r as [|e r]; [done|].
    rewrite (proj2 (Z.eqb_neq _ 0)) by (simpl; lia).
    simpl. by destruct (Pos.of_succ_nat (length r)). }
  cbn [mbind result_bind]. unfold pdf_generator.select_remark.
  by destruct r as [|e r].
Qed.

(** The record that the empty submission is completed to. *)
Lemma calculate_statistics_nothing_done_witness :
  let r := crud.complete_chapter_data [] in
  r ≠ []
  ∧ Forall (λ e, score e = ScoreStr "NA") r
  ∧ Forall (λ e, status e ≠ "Completed") r
  ∧ ∃ stats,
      @pdf_generator.generate_course_report sample.libraries r
      = Ok (stats, pdf_generator.NotStarted).
Proof.
  intros r.
  assert (r ≠ []) as Hr by discriminate.
  assert (Forall (λ e, score e = ScoreStr "NA") r) as Hna
    by (repeat constructor).
  assert (Forall (λ e, status e ≠ "Completed") r) as Hnone
    by (repeat constructor; discriminate).
  split_and!; [exact Hr|exact Hna|exact Hnone|].
  eexists.
  exact (@calculate_statistics_nothing_done sample.libraries r Hr Hna Hnone).
Defined.

(** X15. The dashboard and the report agree: where
    [calculate_statistics] returns a summary, the dashboard computes the
    same numbers of completed chapters and of chapters, and an average
    that, rounded to one decimal, is the [average_score] of the summary;
    where the dashboard fails, the report fails in the same way. On the
    empty list they part: the dashboard shows 0 of 0 with average 0, the
    report raises [ZeroDivisionError]. *)
Theorem session_stats_agrees `{Libraries} :
  (∀ (r : list ChapterData) (stats : pdf_generator.Statistics),
     pdf_generator.calculate_statistics r = Ok stats →
     ∃ avg_score,
       frontend.session_stats r
       = Ok (pdf_generator.completed_count stats,
             pdf_generator.total_count stats, avg_score)
       ∧ pdf_generator.average_score stats = Py.round1 avg_score)
  ∧ (∀ (r : list ChapterData) (x : exn),
       frontend.session_stats r = Raise x →
       pdf_generator.calculate_statistics r = Raise x)
  ∧ frontend.session_stats [] = Ok (0, 0, Py.Int 0)
  ∧ pdf_generator.calculate_statistics [] = Raise ZeroDivisionError.
Proof.
  assert (∀ r, frontend.session_stats r
               = (s ← frontend.scores r;
                  avg_score ←
                    match s with
                    | [] => Ok (Py.Int 0)
                    | _ => q ← Py.int_truediv (Py.sum s) (Py.len s);
                           Ok (Py.Float q)
                    end;
                  Ok (record.completed r, Py.len r, avg_score))) as Hdash.
  { intros r. unfold frontend.session_stats. by rewrite sum_ones. }
  split_and!; [| |done..].
  - intros r stats. rewrite Hdash.
    unfold pdf_generator.calculate_statistics.
    rewrite count_chapters_frontend.
    destruct (frontend.scores r) as [s|x]; cbn [mbind result_bind]; [|done].
    cbn [app].
    destruct (match s with [] => _ | _ => _ end) as [avg|x];
      cbn [mbind result_bind]; [|done].
    destruct (Py.int_truediv _ (Py.len r)); cbn [mbind result_bind]; [|done].
    destruct (Py.float_mul_int _ 100); cbn [mbind result_bind]; [|done].
    intros [= <-]. exists avg. by rewrite Z.add_0_l.
  - intros r x. rewrite Hdash.
    unfold pdf_generator.calculate_statistics.
    rewrite count_chapters_frontend.
    destruct (frontend.scores r) as [s|x0]; cbn [mbind result_bind];
      [|by intros [= ->]].
    cbn [app].
    destruct (match s with [] => _ | _ => _ end) as [avg|x0];
      cbn [mbind result_bind]; [done|by intros [= ->]].
Qed.

Lemma session_stats_agrees_witness :
  ∃ stats avg_score,
    @pdf_generator.calculate_statistics sample.libraries sample.all_completed
    = Ok stats
    ∧ @frontend.session_stats sample.libraries sample.all_completed
      = Ok (7, 7, avg_score).
Proof.
  destruct (@pdf_generator.calculate_statistics sample.libraries
              sample.all_completed) as [stats|x] eqn:Hstats;
    [|by vm_compute in Hstats].
  destruct (@session_stats_agrees sample.libraries) as (Hagree & _).
  destruct (Hagree sample.all_completed stats Hstats) as (avg & Hdash & _).
  exists stats, avg. split; [reflexivity|]. rewrite Hdash.
  vm_compute in Hstats. by injection Hstats as <-.
Defined.

(** ** Registration *)

Section Users.
Implicit Types (db : Session) (row : User.t).

Lemma existsb_find_None {A} (f : A → bool) (l : list A) :
  List.find f l = None → existsb f l = false.
Proof.
  induction l as [|a l IH]; simpl; [done|]. by destruct (f a).
Qed.

Lemma register_user_fresh `{Hashing} db (now : Z) (salt : string)
    (user : UserCreate.t) (hashed : string) :
  crud.get_user_by_email db (UserCreate.email user) = None →
  pwd_context_hash salt (UserCreate.password user) = Ok hashed →
  let row := {| User.email := UserCreate.email user;
                User.hashed_password := hashed;
                User.role := UserCreate.role user;
                User.trainee_name := UserCreate.trainee_name user;
                User.created_at := now |} in
  main.register_user db now salt user
  = Committed ({| users := users db ++ [row];
                  performance_data := performance_data db;
                  performance_data_seq := performance_data_seq db |},
               Ok row).
Proof.
  intros Hnone Hhash. unfold main.register_user, crud.create_user.
  rewrite Hnone. unfold auth.get_password_hash. rewrite Hhash.
  unfold crud.get_user_by_email in Hnone. simpl.
  by rewrite (existsb_find_None _ _ Hnone).
Qed.

Lemma register_user_refused `{Hashing} db (now : Z) (salt : string)
    (user : UserCreate.t) (x : exn) :
  crud.get_user_by_email db (UserCreate.email user) = None →
  pwd_context_hash salt (UserCreate.password user) = Raise x →
  main.register_user db now salt user = Committed (db, Raise x).
Proof.
  intros Hnone Hhash. unfold main.register_user, crud.create_user.
  rewrite Hnone. unfold auth.get_password_hash. by rewrite Hhash.
Qed.

End Users.

(** X16. [register_user] refuses an email that a user has already, with
    400 and the database as it was. On a new email the password is
    hashed: when the hashing raises, the exception goes through and the
    database is as it was; otherwise one user is added, with the hash of
    the password and the role and name of the request, whom
    [get_user_by_email] then finds, while every other email finds what it
    found before. The commit never fails on the primary key, and emails
    that were unique stay unique. *)
Theorem register_user_outcome `{Hashing} (db : Session) (now : Z)
    (salt : string) (user : UserCreate.t) :
  (∀ taken : User.t,
     crud.get_user_by_email db (UserCreate.email user) = Some taken →
     main.register_user db now salt user
     = Committed (db, Raise (HTTPException 400 "Email already registered" [])))
  ∧ (∀ x : exn,
       crud.get_user_by_email db (UserCreate.email user) = None →
       pwd_context_hash salt (UserCreate.password user) = Raise x →
       main.register_user db now salt user = Committed (db, Raise x))
  ∧ (∀ hashed : string,
       crud.get_user_by_email db (UserCreate.email user) = None →
       pwd_context_hash salt (UserCreate.password user) = Ok hashed →
       ∃ (db' : Session) (row : User.t),
         main.register_user db now salt user = Committed (db', Ok row)
         ∧ users db' = users db ++ [row]
         ∧ performance_data db' = performance_data db
         ∧ User.email row = UserCreate.email user
         ∧ User.hashed_password row = hashed
         ∧ User.role row = UserCreate.role user
         ∧ User.trainee_name row = UserCreate.trainee_name user
         ∧ crud.get_user_by_email db' (UserCreate.email user) = Some row
         ∧ (∀ email, email ≠ UserCreate.email user →
              crud.get_user_by_email db' email
              = crud.get_user_by_email db email))
  ∧ main.register_user db now salt user ≠ IntegrityError
  ∧ (record.unique_emails db →
     ∀ db' out, main.register_user db now salt user = Committed (db', out) →
                record.unique_emails db').
Proof.
  split_and!.
  - intros taken Htaken. unfold main.register_user. by rewrite Htaken.
  - intros x. apply register_user_refused.
  - intros hashed Hnone Hhash. eexists _, _.
    split; [by apply register_user_fresh|]. simpl. split_and!; try done.
    + unfold crud.get_user_by_email in *. simpl.
      rewrite find_snoc_None by done. simpl. by rewrite String.eqb_refl.
    + intros email Hne. unfold crud.get_user_by_email. simpl.
      apply find_snoc_other. simpl. apply String.eqb_neq. congruence.
  - destruct (crud.get_user_by_email db (UserCreate.email user)) eqn:Hfind.
    + unfold main.register_user. by rewrite Hfind.
    + destruct (pwd_context_hash salt (UserCreate.password user))
        as [hashed|x] eqn:Hhash.
      * by rewrite (register_user_fresh _ _ _ _ _ Hfind Hhash).
      * by rewrite (register_user_refused _ _ _ _ _ Hfind Hhash).
  - intros Hunique db' out.
    destruct (crud.get_user_by_email db (UserCreate.email user)) eqn:Hfind.
    { unfold main.register_user. rewrite Hfind. by intros [= <- _]. }
    destruct (pwd_context_hash salt (UserCreate.password user))
      as [hashed|x] eqn:Hhash.
    + rewrite (register_user_fresh _ _ _ _ _ Hfind Hhash). intros [= <- _].
      unfold record.unique_emails in *. simpl.
      rewrite fmap_app. apply NoDup_app. split_and!; [done| |].
      * intros email (row & -> & Hrow)%list_elem_of_fmap. simpl.
        rewrite list_elem_of_singleton. intros Heq.
        apply list_elem_of_In in Hrow.
        apply (find_none _ _ Hfind) in Hrow.
        apply String.eqb_neq in Hrow. done.
      * apply NoDup_singleton.
    + rewrite (register_user_refused _ _ _ _ _ Hfind Hhash).
      by intros [= <- _].
Qed.

Lemma register_user_outcome_witness :
  let user := {| UserCreate.email := "bob@example.com";
                 UserCreate.password := "open sesame";
                 UserCreate.role := "Trainee";
                 UserCreate.trainee_name := "Bob" |} in
  crud.get_user_by_email sample.db (UserCreate.email user) = None
  ∧ @pwd_context_hash sample.hashing "salt" (UserCreate.password user)
    = Ok "hash of open sesame"
  ∧ record.unique_emails sample.db
  ∧ ∃ db' row,
      @main.register_user sample.hashing sample.db 7 "salt" user
      = Committed (db', Ok row)
      ∧ crud.get_user_by_email db' "bob@example.com" = Some row
      ∧ record.unique_emails db'.
Proof.
  intros user.
  assert (crud.get_user_by_email sample.db (UserCreate.email user) = None)
    as Hnone by reflexivity.
  assert (@pwd_context_hash sample.hashing "salt" (UserCreate.password user)
          = Ok "hash of open sesame") as Hhash by reflexivity.
  assert (record.unique_emails sample.db) as Hunique by compute_done.
  split_and!; [exact Hnone|exact Hhash|exact Hunique|].
  destruct (@register_user_outcome sample.hashing sample.db 7 "salt" user)
    as (_ & _ & Hfresh & _ & Hkeep).
  destruct (Hfresh _ Hnone Hhash) as (db' & row & Hreg & _ & _ & _ & _ & _ & _
                                      & Hfind & _).
  exists db', row. split_and!; [exact Hreg|exact Hfind|].
  exact (Hkeep Hunique db' (Ok row) Hreg).
Defined.

(** A password that the password scheme of the sample refuses: the
    registration raises and adds nothing. *)
Lemma register_user_refused_sample :
  @main.register_user sample.hashing sample.db 7 "salt"
    {| UserCreate.email := "bob@example.com";
       UserCreate.password := "open sesame" +:+ sample.NUL;
       UserCreate.role := "Trainee";
       UserCreate.trainee_name := "Bob" |}
  = Committed (sample.db, Raise sample.NullPasswordError).
Proof. reflexivity. Qed.

(** X17. Registration, then login: when the library verifies a password
    against its own hash of it, a user who was registered logs in with the
    email and the password of the registration, at any later time, and the
    token is for that email. *)
Theorem register_then_login `{Libraries} `{Hashing} (db db' : Session)
    (now now' : Z) (salt : string) (user : UserCreate.t) (row : User.t) :
  (∀ salt password hashed,
     pwd_context_hash salt password = Ok hashed →
     pwd_context_verify password hashed = Ok true) →
  main.register_user db now salt user = Committed (db', Ok row) →
  auth.authenticate_user db' (UserCreate.email user)
                         (UserCreate.password user) = Ok (Some row)
  ∧ main.login db' now' {| main.email := UserCreate.email user;
                           main.password := UserCreate.password user |}
    = Ok {| main.access_token :=
              jwt_encode (UserCreate.email user) (now' + 30 * 86400);
            main.token_type := "bearer" |}.
Proof.
  intros Hverify Hreg.
  destruct (crud.get_user_by_email db (UserCreate.email user)) eqn:Hfind.
  { unfold main.register_user in Hreg. by rewrite Hfind in Hreg. }
  destruct (pwd_context_hash salt (UserCreate.password user))
    as [hashed|x] eqn:Hhash;
    [|by rewrite (register_user_refused _ _ _ _ _ Hfind Hhash) in Hreg].
  rewrite (register_user_fresh _ _ _ _ _ Hfind Hhash) in Hreg.
  injection Hreg as <- <-.
  set (row0 := {| User.email := UserCreate.email user;
                  User.hashed_password := hashed;
                  User.role := UserCreate.role user;
                  User.trainee_name := UserCreate.trainee_name user;
                  User.created_at := now |}).
  assert (auth.authenticate_user
            {| users := users db ++ [row0];
               performance_data := performance_data db;
               performance_data_seq := performance_data_seq db |}
            (UserCreate.email user) (UserCreate.password user)
          = Ok (Some row0)) as Hauth.
  { unfold auth.authenticate_user, crud.get_user_by_email in *. simpl.
    rewrite find_snoc_None by done. simpl. rewrite String.eqb_refl.
    unfold auth.verify_password. simpl.
    by rewrite (Hverify _ _ _ Hhash). }
  split; [exact Hauth|]. unfold main.login. simpl.
  rewrite Hauth. unfold auth.create_access_token, auth.seconds_of_days,
    ACCESS_TOKEN_EXPIRE_DAYS. done.
Qed.

Lemma register_then_login_witness :
  let user := {| UserCreate.email := "bob@example.com";
                 UserCreate.password := "open sesame";
                 UserCreate.role := "Trainee";
                 UserCreate.trainee_name := "Bob" |} in
  (∀ salt password hashed,
     @pwd_context_hash sample.hashing salt password = Ok hashed →
     @pwd_context_verify sample.libraries password hashed = Ok true)
  ∧ ∃ db' row token,
      @main.register_user sample.hashing sample.db 7 "salt" user
      = Committed (db', Ok row)
      ∧ @main.login sample.libraries db' 8
          {| main.email := "bob@example.com";
             main.password := "open sesame" |} = Ok token.
Proof.
  intros user.
  assert (∀ salt password hashed,
            @pwd_context_hash sample.hashing salt password = Ok hashed →
            @pwd_context_verify sample.libraries password hashed = Ok true)
    as Hverify.
  { intros salt password hashed. simpl.
    destruct (sample.refused password); [done|].
    intros [= <-]. by rewrite String.eqb_refl. }
  split; [exact Hverify|].
  destruct (@main.register_user sample.hashing sample.db 7 "salt" user)
    as [[db' [row|x]]|] eqn:Hreg;
    [|by vm_compute in Hreg..].
  eexists db', row, _. split; [reflexivity|].
  destruct (@register_then_login sample.libraries sample.hashing
              sample.db db' 7 8 "salt" user row Hverify Hreg)
    as [_ Hlogin].
  exact Hlogin.
Defined.

(** ** A report that cannot be produced *)

Section ReportErrors.
Context `{Libraries}.

(** What the report can raise. *)
Lemma generate_course_report_Raise (r : list ChapterData) (x : exn) :
  pdf_generator.generate_course_report r = Raise x →
  x = ZeroDivisionError ∨ x = OverflowError ∨ ∃ msg, x = ValueError msg.
Proof.
  unfold pdf_generator.generate_course_report,
    pdf_generator.calculate_statistics.
  assert (∀ a b, Py.int_truediv a b = Raise ZeroDivisionError
                 ∨ Py.int_truediv a b = Raise OverflowError
                 ∨ ∃ q, Py.int_truediv a b = Ok q) as Hdiv.
  { intros a b. unfold Py.int_truediv.
    destruct (b =? 0); [by left|]. destruct (SFdiv _ _ _ _); eauto. }
  assert (∀ ratio, Py.float_mul_int ratio 100
                   = Ok (SFmul Py.prec Py.emax ratio
                           (S754_finite false 7036874417766400 (-46))))
    as Hmul by done.
  destruct (pdf_generator.count_chapters r 0 []) as [[c ts]|x0] eqn:Hcount;
    cbn [mbind result_bind].
  - destruct ts as [|i ts]; cbn [mbind result_bind].
    + destruct (Hdiv c (Py.len r)) as [->|[->|[q ->]]];
        cbn [mbind result_bind]; [intros [= <-]; auto..|by rewrite Hmul].
    + destruct (Hdiv (Py.sum (i :: ts)) (Py.len (i :: ts)))
        as [->|[->|[q ->]]]; cbn [mbind result_bind];
        [intros [= <-]; auto..|].
      destruct (Hdiv c (Py.len r)) as [->|[->|[q' ->]]];
        cbn [mbind result_bind]; [intros [= <-]; auto..|by rewrite Hmul].
  - apply count_chapters_Raise in Hcount as [msg ->].
    intros [= <-]. eauto.
Qed.

End ReportErrors.

(** X18. For a session id of 64 bits, one that the database can bind,
    [download_report] answers 404 exactly when no session has the id,
    whoever asks, an "Admin" included. When the session exists and the
    requester may read it but no user has the email of the session, the
    handler raises [AttributeError]. *)
Theorem download_report_missing `{Libraries} (db : Session) (session_id : Z)
    (current_user : User.t) :
  record.int64 session_id →
  (crud.get_performance_by_session_id db session_id = None
   ↔ main.download_report db session_id current_user
     = Raise (HTTPException 404
                ("Performance session not found with ID: "
                 +:+ pretty session_id) []))
  ∧ (∀ performance : PerformanceData.t,
       crud.get_performance_by_session_id db session_id = Some performance →
       User.email current_user = PerformanceData.email performance
       ∨ User.role current_user = "Admin" →
       crud.get_user_by_email db (PerformanceData.email performance) = None →
       main.download_report db session_id current_user
       = Raise AttributeError).
Proof.
  intros _. split.
  - destruct (crud.get_performance_by_session_id db session_id)
      as [performance|] eqn:Hfind.
    + split; [done|]. rewrite (download_report_guard _ _ _ _ Hfind).
      case_bool_decide; [|done].
      destruct (crud.get_user_by_email db _); [|done].
      destruct (pdf_generator.generate_course_report _) as [[stats rem]|x]
        eqn:Hreport; cbn [mbind result_bind].
      * unfold main.StreamingResponse.
        by destruct (Py.latin1_encodable _).
      * apply generate_course_report_Raise in Hreport
          as [->|[->|[msg ->]]]; done.
    + split; [|done]. intros _. unfold main.download_report.
      by rewrite Hfind.
  - intros performance Hfind Hallowed Hnone.
    rewrite (download_report_guard _ _ _ _ Hfind).
    by rewrite bool_decide_eq_true_2, Hnone by done.
Qed.

Lemma download_report_missing_witness :
  record.int64 42
  ∧ crud.get_performance_by_session_id sample.db 42 = None
  ∧ @main.download_report sample.libraries sample.db 42 sample.admin
    = Raise (HTTPException 404
               "Performance session not found with ID: 42" []).
Proof.
  assert (record.int64 42) as Hint by (unfold record.int64; lia).
  assert (crud.get_performance_by_session_id sample.db 42 = None) as Hnone
    by reflexivity.
  split_and!; [exact Hint|exact Hnone|].
  destruct (@download_report_missing sample.libraries sample.db 42
              sample.admin Hint) as [Hiff _].
  exact (proj1 Hiff Hnone).
Defined.
